(** * The notification rule engine of the AWS Toolkit

    A shallow embedding of [packages/core/src/notifications/rules.ts]:
    the version matcher [isValidVersion], the class [RuleEngine] with its
    methods [shouldDisplayNotification], [evaluate] and [evaluateRule], and
    the snapshot builder [getRuleContext].

    JavaScript values are modelled the way the code uses them: strings as
    [string], arrays as [list], [Set] as [gset string], an optional field as
    [option], and a call that may throw as a [result]. *)

From Stdlib Require Import String Ascii List Bool NArith.
From stdpp Require Import base decidable list strings gmap.
From Stdlib Require Import ZArith DecimalString.
Import ListNotations.

Local Open Scope string_scope.
Local Open Scope list_scope.

(** ** Completions: a value, or a thrown error *)

(** The two error classes the code can raise: [new Error(msg)] in the
    [default] branches of rules.ts and the [TypeError] of the semver
    package. *)
Inductive JsError : Type :=
| Error (message : string)
| TypeError (message : string).

Inductive result (A : Type) : Type :=
| Ok (value : A)
| Throw (error : JsError).

Arguments Ok {A} value.
Arguments Throw {A} error.

Definition bind {A B : Type} (r : result A) (k : A -> result B) : result B :=
  match r with
  | Ok a => k a
  | Throw e => Throw e
  end.

Notation "'let*' x ':=' r 'in' k" := (bind r (fun x => k))
  (at level 10, x name, r at level 100, k at level 200).

(** ** JavaScript primitives used by the rule engine *)

(** Truthiness of an optional string ([!s] is its negation): [undefined] and
    the empty string are falsy. *)
Definition truthy (s : option string) : bool :=
  match s with
  | None => false
  | Some s' => negb (String.eqb s' "")
  end.

Section Array.
Context {A : Type}.

Section some.
Variable callback : A -> result bool.

(** [Array.prototype.some] with a callback that may throw: the elements are
    visited from the left, the first [true] ends the visit, and a throw of
    the callback ends it with that throw. *)
Fixpoint Array_some (arr : list A) : result bool :=
  match arr with
  | [] => Ok false
  | x :: rest =>
      match callback x with
      | Ok true => Ok true
      | Ok false => Array_some rest
      | Throw e => Throw e
      end
  end.
End some.

(** [some] and [every] with a callback that cannot throw. *)
Definition some (callback : A -> bool) (arr : list A) : bool := existsb callback arr.
Definition every (callback : A -> bool) (arr : list A) : bool := forallb callback arr.
End Array.

(** [new Set(arr)] and [Set.prototype.has] on strings. *)
Definition new_Set (arr : list string) : gset string := list_to_set arr.
Definition has (s : gset string) (x : string) : bool := bool_decide (x ∈ s).

(** [String.prototype.split] with a one-character separator: the pieces
    between the separators, the empty pieces included; a string without the
    separator is its only piece. *)
Fixpoint split (sep : ascii) (s : string) : list string :=
  match s with
  | EmptyString => [""]
  | String c rest =>
      if Ascii.eqb c sep then "" :: split sep rest
      else match split sep rest with
           | [] => [String c ""]
           | piece :: pieces => String c piece :: pieces
           end
  end.

(** ** The semver package

    rules.ts imports the npm package [semver] and calls its functions [gte],
    [lt] and [eq] on version strings.  Each of them is [compare(a, b)]
    tested against zero, and [compare(a, b)] is
    [new SemVer(a).compare(new SemVer(b))]: both strings are parsed, the
    first one first, and the constructor throws a [TypeError] for a string
    that is not a semantic version. *)
Module semver.

(** What the rule engine relies on: the constructor (a parsed version, or
    the message of the [TypeError] it throws) and the comparison of two
    parsed versions. *)
Class Package : Type := {
  SemVer : Type;
  parse : string -> SemVer + string;
  compareSemVer : SemVer -> SemVer -> comparison;
}.

Section api.
Context {pkg : Package}.

Definition new_SemVer (version : string) : result SemVer :=
  match parse version with
  | inl v => Ok v
  | inr message => Throw (TypeError message)
  end.

Definition compare (a b : string) : result comparison :=
  let* x := new_SemVer a in
  let* y := new_SemVer b in
  Ok (compareSemVer x y).

(** [compare(a, b) >= 0], [compare(a, b) < 0], [compare(a, b) === 0]. *)
Definition gte (a b : string) : result bool :=
  let* c := compare a b in
  Ok (match c with Lt => false | _ => true end).

Definition lt (a b : string) : result bool :=
  let* c := compare a b in
  Ok (match c with Lt => true | _ => false end).

Definition eq (a b : string) : result bool :=
  let* c := compare a b in
  Ok (match c with Eq => true | _ => false end).

(** A string the constructor accepts. *)
Definition valid (version : string) : Prop :=
  exists v, parse version = inl v.
End api.

End semver.

(** ** The package's parser and comparison in strict mode

    The constructor refuses a string longer than [MAX_LENGTH], trims it, and
    matches it against [^v?MAJOR.MINOR.PATCH(-PRERELEASE)?(+BUILD)?$]: the
    three numbers are [0|[1-9][0-9]*], a pre-release is dot-separated
    identifiers over [0-9A-Za-z-] (one that is all digits has no leading
    zero), build metadata is dot-separated non-empty identifiers over the
    same characters.  A number above [MAX_SAFE_INTEGER] is refused.  The
    comparison looks at the three numbers, then at the pre-release
    identifiers; build metadata takes no part in it.  Strings are byte
    strings here, so only ASCII white space is trimmed, and all-digit
    pre-release identifiers are compared as exact integers (the package
    compares them as JavaScript numbers, which is the same below 2^53). *)
Module node_semver.

Definition MAX_LENGTH : nat := 256.
Definition MAX_SAFE_INTEGER : N := 9007199254740991%N.

Definition in_range (lo hi : N) (c : ascii) : bool :=
  ((lo <=? N_of_ascii c) && (N_of_ascii c <=? hi))%N.

Definition is_digit (c : ascii) : bool := in_range 48 57 c.
Definition is_letter_dash_number (c : ascii) : bool :=
  is_digit c || in_range 65 90 c || in_range 97 122 c || Ascii.eqb c "-".
Definition is_space (c : ascii) : bool := in_range 9 13 c || Ascii.eqb c " ".

Fixpoint all_chars (p : ascii -> bool) (s : string) : bool :=
  match s with
  | EmptyString => true
  | String c rest => p c && all_chars p rest
  end.

Fixpoint trimStart (s : string) : string :=
  match s with
  | String c rest => if is_space c then trimStart rest else s
  | EmptyString => s
  end.

Fixpoint trimEnd (s : string) : string :=
  match s with
  | EmptyString => s
  | String c rest =>
      let rest' := trimEnd rest in
      if is_space c && String.eqb rest' "" then "" else String c rest'
  end.

Definition trim (s : string) : string := trimEnd (trimStart s).

(** The decimal value of a string of digits. *)
Fixpoint to_number (acc : N) (s : string) : N :=
  match s with
  | EmptyString => acc
  | String c rest => to_number (acc * 10 + (N_of_ascii c - 48))%N rest
  end.

(** [s] cut at the first [sep]: what stands before it, and what stands after
    it when there is one. *)
Fixpoint cut (sep : ascii) (s : string) : string * option string :=
  match s with
  | EmptyString => ("", None)
  | String c rest =>
      if Ascii.eqb c sep then ("", Some rest)
      else let '(before, after) := cut sep rest in (String c before, after)
  end.

Definition numeric (s : string) : bool :=
  negb (String.eqb s "") && all_chars is_digit s.

(** NUMERICIDENTIFIER, PRERELEASEIDENTIFIER and BUILDIDENTIFIER. *)
Definition numeric_identifier (s : string) : bool :=
  numeric s && (String.eqb s "0" || negb (String.prefix "0" s)).

Definition build_identifier (s : string) : bool :=
  negb (String.eqb s "") && all_chars is_letter_dash_number s.

Definition prerelease_identifier (s : string) : bool :=
  build_identifier s && (negb (numeric s) || numeric_identifier s).

Inductive Identifier : Type :=
| Num (n : N)
| Str (s : string).

Definition identifier (s : string) : Identifier :=
  if numeric s then Num (to_number 0 s) else Str s.

Record SemVer : Type := {
  major : N;
  minor : N;
  patch : N;
  prerelease : list Identifier;
  build : list string;
}.

Definition dotted (part : option string) : list string :=
  match part with
  | None => []
  | Some s => split "." s
  end.

Definition parse (version : string) : SemVer + string :=
  if (MAX_LENGTH <? String.length version)%nat
  then inr "version is longer than 256 characters"
  else
    let trimmed := trim version in
    let plain :=
      match trimmed with
      | String "v" rest => rest
      | _ => trimmed
      end in
    let '(main_pre, build_part) := cut "+" plain in
    let '(main, pre_part) := cut "-" main_pre in
    match split "." main with
    | [ma; mi; pa] =>
        if numeric_identifier ma && numeric_identifier mi && numeric_identifier pa
           && forallb prerelease_identifier (dotted pre_part)
           && forallb build_identifier (dotted build_part)
        then
          if (MAX_SAFE_INTEGER <? to_number 0 ma)%N then inr "Invalid major version"
          else if (MAX_SAFE_INTEGER <? to_number 0 mi)%N then inr "Invalid minor version"
          else if (MAX_SAFE_INTEGER <? to_number 0 pa)%N then inr "Invalid patch version"
          else inl {| major := to_number 0 ma;
                      minor := to_number 0 mi;
                      patch := to_number 0 pa;
                      prerelease := map identifier (dotted pre_part);
                      build := dotted build_part |}
        else inr ("Invalid Version: " +:+ version)
    | _ => inr ("Invalid Version: " +:+ version)
    end.

(** [compareIdentifiers]: numbers before words, numbers by value, words by
    their characters. *)
Definition compareIdentifiers (a b : Identifier) : comparison :=
  match a, b with
  | Num x, Num y => N.compare x y
  | Num _, Str _ => Lt
  | Str _, Num _ => Gt
  | Str x, Str y => String.compare x y
  end.

Definition compareMain (this other : SemVer) : comparison :=
  match N.compare (major this) (major other) with
  | Eq =>
      match N.compare (minor this) (minor other) with
      | Eq => N.compare (patch this) (patch other)
      | c => c
      end
  | c => c
  end.

(** The loop of [comparePre]: the first position where the identifiers
    differ decides, and a list that ends first is the smaller one. *)
Fixpoint compare_identifiers (a b : list Identifier) : comparison :=
  match a, b with
  | [], [] => Eq
  | _ :: _, [] => Gt
  | [], _ :: _ => Lt
  | x :: a', y :: b' =>
      match compareIdentifiers x y with
      | Eq => compare_identifiers a' b'
      | c => c
      end
  end.

(** A version with a pre-release is smaller than the same version without. *)
Definition comparePre (this other : SemVer) : comparison :=
  match prerelease this, prerelease other with
  | _ :: _, [] => Lt
  | [], _ :: _ => Gt
  | [], [] => Eq
  | a, b => compare_identifiers a b
  end.

Definition compare (this other : SemVer) : comparison :=
  match compareMain this other with
  | Eq => comparePre this other
  | c => c
  end.

#[export] Instance package : semver.Package := {|
  semver.SemVer := SemVer;
  semver.parse := parse;
  semver.compareSemVer := compare;
|}.

End node_semver.

(** ** The data model

    The shapes are those rules.ts reads.  A condition tree comes from a
    JSON document, so besides the three clause variants of the type
    [ConditionalClause] there is the object whose [type] is none of theirs,
    the one the [default] branch of [isValidVersion] is for; a criterion
    keeps its [type] as the string the [switch] of [evaluateRule] reads. *)

#[local] Set Warnings "-register-all".
Inductive ConditionalClause : Type :=
| Range (lowerInclusive upperExclusive : option string)
| ExactMatch (values : list string)
| OR (clauses : list ConditionalClause)
| OtherClause (type : string).

(** The [type] field of a clause. *)
Definition clauseType (condition : ConditionalClause) : string :=
  match condition with
  | Range _ _ => "range"
  | ExactMatch _ => "exactMatch"
  | OR _ => "or"
  | OtherClause type => type
  end.

Module CriteriaCondition.
Record t : Type := {
  type : string;
  values : list string;
}.
End CriteriaCondition.

Module RuleContext.
Record t : Type := {
  ideVersion : string;
  extensionVersion : string;
  os : string;
  computeEnv : string;
  authTypes : list string;
  authRegions : list string;
  authStates : list string;
  authScopes : list string;
  installedExtensions : list string;
  activeExtensions : list string;
}.
End RuleContext.

Module DisplayIf.
Record t : Type := {
  extensionId : string;
  ideVersion : option ConditionalClause;
  extensionVersion : option ConditionalClause;
  additionalCriteria : option (list CriteriaCondition.t);
}.
End DisplayIf.

Record ToolkitNotification : Type := {
  displayIf : DisplayIf.t;
}.

(** ** isValidVersion *)

(** [!bound || test(bound)]: the test runs on a truthy bound only. *)
Definition unless_falsy (bound : option string) (test : string -> result bool) : result bool :=
  match bound with
  | Some b => if negb (truthy bound) then Ok true else test b
  | None => Ok true
  end.

Section version.
Context {pkg : semver.Package}.

Fixpoint isValidVersion (version : string) (condition : ConditionalClause) : result bool :=
  match condition with
  | Range lowerInclusive upperExclusive =>
      let* lowerConstraint := unless_falsy lowerInclusive (fun l => semver.gte version l) in
      let* upperConstraint := unless_falsy upperExclusive (fun u => semver.lt version u) in
      Ok (lowerConstraint && upperConstraint)
  | ExactMatch values =>
      Array_some (fun v => semver.eq v version) values
  | OR clauses =>
      Array_some (fun clause => isValidVersion version clause) clauses
  | OtherClause type =>
      Throw (Error ("Unknown clause type: " +:+ type))
  end.

End version.

(** ** RuleEngine *)

Record RuleEngine : Type := new_RuleEngine {
  context : RuleContext.t;
}.

Section engine.
Context {pkg : semver.Package}.

(** [globals.context.extension.id], the id of the running extension. *)
Variable currentExt : string.

Definition evaluateRule (this : RuleEngine) (criteria : CriteriaCondition.t) : result bool :=
  let expected := CriteriaCondition.values criteria in
  let expectedSet := new_Set expected in
  let isExpected (i : string) := has expectedSet i in
  let hasAnyOfExpected (i : list string) := some (fun v => has expectedSet v) i in
  let isSuperSetOfExpected (i : list string) :=
    let s := new_Set i in
    every (fun v => has s v) expected in
  let isEqualSetToExpected (i : list string) :=
    let s := new_Set i in
    every (fun v => has s v) expected && every (fun v => has expectedSet v) i in
  let type := CriteriaCondition.type criteria in
  if String.eqb type "OS" then
    Ok (isExpected (RuleContext.os (context this)))
  else if String.eqb type "ComputeEnv" then
    Ok (isExpected (RuleContext.computeEnv (context this)))
  else if String.eqb type "AuthType" then
    Ok (hasAnyOfExpected (RuleContext.authTypes (context this)))
  else if String.eqb type "AuthRegion" then
    Ok (hasAnyOfExpected (RuleContext.authRegions (context this)))
  else if String.eqb type "AuthState" then
    Ok (hasAnyOfExpected (RuleContext.authStates (context this)))
  else if String.eqb type "AuthScopes" then
    Ok (isEqualSetToExpected (RuleContext.authScopes (context this)))
  else if String.eqb type "InstalledExtensions" then
    Ok (isSuperSetOfExpected (RuleContext.installedExtensions (context this)))
  else if String.eqb type "ActiveExtensions" then
    Ok (isSuperSetOfExpected (RuleContext.activeExtensions (context this)))
  else
    Throw (Error ("Unknown criteria type: " +:+ type)).

(** The [for ... of] loop of [evaluate] over [additionalCriteria]:
    [Some false] when it leaves the method with [return false], [None] when
    it runs to its end. *)
Fixpoint for_of_criteria (this : RuleEngine) (additionalCriteria : list CriteriaCondition.t)
  : result (option bool) :=
  match additionalCriteria with
  | [] => Ok None
  | criteria :: rest =>
      let* passed := evaluateRule this criteria in
      if negb passed then Ok (Some false) else for_of_criteria this rest
  end.

Definition evaluate (this : RuleEngine) (condition : DisplayIf.t) : result bool :=
  if negb (String.eqb (DisplayIf.extensionId condition) currentExt) then Ok false
  else
    let* ideOk :=
      match DisplayIf.ideVersion condition with
      | Some clause => isValidVersion (RuleContext.ideVersion (context this)) clause
      | None => Ok true
      end in
    if negb ideOk then Ok false
    else
      let* extensionOk :=
        match DisplayIf.extensionVersion condition with
        | Some clause => isValidVersion (RuleContext.extensionVersion (context this)) clause
        | None => Ok true
        end in
      if negb extensionOk then Ok false
      else
        let* returned :=
          match DisplayIf.additionalCriteria condition with
          | Some additionalCriteria => for_of_criteria this additionalCriteria
          | None => Ok None
          end in
        match returned with
        | Some value => Ok value
        | None => Ok true
        end.

Definition shouldDisplayNotification (this : RuleEngine) (payload : ToolkitNotification) : result bool :=
  evaluate this (displayIf payload).

End engine.

(** ** getRuleContext *)

(** What [getRuleContext] reads besides its arguments: [vscode.version],
    [vscode.extensions.all], and the telemetry helpers [getOperatingSystem]
    and [getComputeEnvType] (the latter awaited: its resolved value).  The
    object literal is built in one synchronous step after that [await], so
    the two reads of [vscode.extensions.all] see the same extensions. *)
Module vscode.
Record Extension : Type := {
  id : string;
  isActive : bool;
  packageJSON_version : string;
}.
Record ExtensionContext : Type := {
  extension : Extension;
}.
Record Host : Type := {
  version : string;
  extensions_all : list Extension;
  getOperatingSystem : string;
  getComputeEnvType : string;
}.
End vscode.

Record AuthState : Type := {
  authEnabledConnections : string;
  awsRegion : option string;
  authStatus : string;
  authScopes : option string;
}.

Section getRuleContext.
Variable host : vscode.Host.

Definition getRuleContext (context : vscode.ExtensionContext) (authState : AuthState)
  : RuleContext.t :=
  {| RuleContext.ideVersion := vscode.version host;
     RuleContext.extensionVersion := vscode.packageJSON_version (vscode.extension context);
     RuleContext.os := vscode.getOperatingSystem host;
     RuleContext.computeEnv := vscode.getComputeEnvType host;
     RuleContext.authTypes := split "," (authEnabledConnections authState);
     RuleContext.authRegions :=
       match awsRegion authState with
       | Some region => if truthy (awsRegion authState) then [region] else []
       | None => []
       end;
     RuleContext.authStates := [authStatus authState];
     RuleContext.authScopes :=
       match authScopes authState with
       | Some scopes => if truthy (authScopes authState) then split "," scopes else []
       | None => []
       end;
     RuleContext.installedExtensions := map vscode.id (vscode.extensions_all host);
     RuleContext.activeExtensions :=
       map vscode.id (List.filter (fun e => vscode.isActive e) (vscode.extensions_all host));
  |}.

End getRuleContext.

(** ** Vocabulary of the properties *)

(** The variants the two [switch] statements know. *)
Definition clauseTypes : list string := ["range"; "exactMatch"; "or"].

Definition criteriaTypes : list string :=
  ["OS"; "ComputeEnv"; "AuthType"; "AuthRegion"; "AuthState"; "AuthScopes";
   "InstalledExtensions"; "ActiveExtensions"].

(** A condition tree all of whose clauses are of a known variant. *)
Fixpoint recognizedClause (condition : ConditionalClause) : bool :=
  match condition with
  | Range _ _ => true
  | ExactMatch _ => true
  | OR clauses => forallb recognizedClause clauses
  | OtherClause _ => false
  end.

Definition recognizedCriteria (criteria : CriteriaCondition.t) : bool :=
  bool_decide (CriteriaCondition.type criteria ∈ criteriaTypes).

Definition recognizedGate (clause : option ConditionalClause) : bool :=
  match clause with
  | Some condition => recognizedClause condition
  | None => true
  end.

Definition recognized (condition : DisplayIf.t) : bool :=
  recognizedGate (DisplayIf.ideVersion condition)
  && recognizedGate (DisplayIf.extensionVersion condition)
  && forallb recognizedCriteria (default [] (DisplayIf.additionalCriteria condition)).

(** The strings of a condition tree that [isValidVersion] may hand to the
    semver package: the truthy bounds of its ranges and the entries of its
    exact matches. *)
Definition boundVersions (bound : option string) : list string :=
  match bound with
  | Some b => if truthy bound then [b] else []
  | None => []
  end.

Fixpoint clauseVersions (condition : ConditionalClause) : list string :=
  match condition with
  | Range lowerInclusive upperExclusive => boundVersions lowerInclusive ++ boundVersions upperExclusive
  | ExactMatch values => values
  | OR clauses => flat_map clauseVersions clauses
  | OtherClause _ => []
  end.

Definition gateVersions (clause : option ConditionalClause) : list string :=
  match clause with
  | Some condition => clauseVersions condition
  | None => []
  end.

(** A bound that is absent, or present as the empty string. *)
Definition unset (bound : option string) : Prop :=
  bound = None \/ bound = Some "".

Section vocabulary.
Context {pkg : semver.Package}.

(** [version >= bound], [version < bound] and [entry = version] in the
    order of the semver package. *)
Definition atLeast (version : string) (bound : option string) : Prop :=
  exists l, bound = Some l /\ semver.gte version l = Ok true.

Definition below (version : string) (bound : option string) : Prop :=
  exists u, bound = Some u /\ semver.lt version u = Ok true.

Definition sameVersion (entry version : string) : Prop :=
  semver.eq entry version = Ok true.

(** A version gate of [DisplayIf] that is absent, or present and matched by
    the version. *)
Definition absentOrMatches (version : string) (clause : option ConditionalClause) : Prop :=
  clause = None \/ exists condition, clause = Some condition /\ isValidVersion version condition = Ok true.

(** Every version string the evaluation of [condition] in the context of
    [this] can compare is one the package accepts. *)
Definition versionsValid (this : RuleEngine) (condition : DisplayIf.t) : Prop :=
  semver.valid (RuleContext.ideVersion (context this))
  /\ semver.valid (RuleContext.extensionVersion (context this))
  /\ Forall semver.valid (gateVersions (DisplayIf.ideVersion condition))
  /\ Forall semver.valid (gateVersions (DisplayIf.extensionVersion condition)).
End vocabulary.

(** Every criterion of the list, an absent list having none, passes. *)
Definition criteriaPass (this : RuleEngine) (additionalCriteria : option (list CriteriaCondition.t)) : Prop :=
  Forall (fun criteria => evaluateRule this criteria = Ok true) (default [] additionalCriteria).

(** The intersection test of the criteria of one [type], [field] being the
    list of the context that type is matched against: the matcher returns
    a boolean, true exactly when a value of the context is among the
    expected ones, hence false when either list is empty. *)
Definition matchesAnyOfExpected (type : string) (field : RuleContext.t -> list string) : Prop :=
  forall (this : RuleEngine) (values : list string),
    let criteria := {| CriteriaCondition.type := type; CriteriaCondition.values := values |} in
    (evaluateRule this criteria = Ok true \/ evaluateRule this criteria = Ok false)
    /\ (evaluateRule this criteria = Ok true <->
        exists v, v ∈ field (context this) /\ v ∈ values)
    /\ (field (context this) = [] -> evaluateRule this criteria = Ok false)
    /\ (values = [] -> evaluateRule this criteria = Ok false).

(** ** The steps of [evaluate] by name *)
Section steps.
Context {pkg : semver.Package}.

(** One version gate of [evaluate]: the clause when there is one. *)
Definition versionGate (version : string) (clause : option ConditionalClause) : result bool :=
  match clause with
  | Some condition => isValidVersion version condition
  | None => Ok true
  end.

(** The last step of [evaluate]. *)
Definition criteriaGate (this : RuleEngine) (additionalCriteria : option (list CriteriaCondition.t))
  : result (option bool) :=
  match additionalCriteria with
  | Some criteria => for_of_criteria this criteria
  | None => Ok None
  end.

End steps.

(** ** Sample inputs *)

Definition toolkit : string := "amazonwebservices.aws-toolkit-vscode".

Definition sampleContext : RuleContext.t :=
  {| RuleContext.ideVersion := "1.50.0";
     RuleContext.extensionVersion := "3.0.0";
     RuleContext.os := "LINUX";
     RuleContext.computeEnv := "local";
     RuleContext.authTypes := ["builderId"; "iamIdentityCenter"];
     RuleContext.authRegions := ["us-east-1"];
     RuleContext.authStates := ["disconnected"];
     RuleContext.authScopes := ["codewhisperer:completions"; "codewhisperer:analysis"];
     RuleContext.installedExtensions := ["ms-python.python"; "redhat.vscode-yaml"];
     RuleContext.activeExtensions := ["ms-python.python"] |}.

Definition sampleContextNoRegion : RuleContext.t :=
  {| RuleContext.ideVersion := "1.50.0";
     RuleContext.extensionVersion := "3.0.0";
     RuleContext.os := "LINUX";
     RuleContext.computeEnv := "local";
     RuleContext.authTypes := ["builderId"];
     RuleContext.authRegions := [];
     RuleContext.authStates := ["notConnected"];
     RuleContext.authScopes := [];
     RuleContext.installedExtensions := [];
     RuleContext.activeExtensions := [] |}.

Definition withInstalled (ids : list string) : RuleContext.t :=
  {| RuleContext.ideVersion := "1.50.0";
     RuleContext.extensionVersion := "3.0.0";
     RuleContext.os := "LINUX";
     RuleContext.computeEnv := "local";
     RuleContext.authTypes := [];
     RuleContext.authRegions := [];
     RuleContext.authStates := ["notConnected"];
     RuleContext.authScopes := [];
     RuleContext.installedExtensions := ids;
     RuleContext.activeExtensions := [] |}.

Definition withScopes (scopes : list string) : RuleContext.t :=
  {| RuleContext.ideVersion := "1.50.0";
     RuleContext.extensionVersion := "3.0.0";
     RuleContext.os := "LINUX";
     RuleContext.computeEnv := "local";
     RuleContext.authTypes := [];
     RuleContext.authRegions := [];
     RuleContext.authStates := ["connected"];
     RuleContext.authScopes := scopes;
     RuleContext.installedExtensions := [];
     RuleContext.activeExtensions := [] |}.

Definition engine : RuleEngine := new_RuleEngine sampleContext.

Definition notification (condition : DisplayIf.t) : ToolkitNotification :=
  {| displayIf := condition |}.

(** A gate of known variants whose lower bound lacks its patch number. *)
Definition invalidBoundGate : DisplayIf.t :=
  {| DisplayIf.extensionId := toolkit;
     DisplayIf.ideVersion := None;
     DisplayIf.extensionVersion := Some (Range (Some "1.21") None);
     DisplayIf.additionalCriteria := None |}.

(** A gate of known variants with an empty [or], an empty [exactMatch], an
    absent [ideVersion] and an empty list of criteria. *)
Definition validGate : DisplayIf.t :=
  {| DisplayIf.extensionId := toolkit;
     DisplayIf.ideVersion := None;
     DisplayIf.extensionVersion :=
       Some (OR [OR []; ExactMatch []; Range (Some "2.0.0") (Some "")]);
     DisplayIf.additionalCriteria := Some [] |}.

(** A gate for another extension whose clauses and criterion are of no
    known variant. *)
Definition otherExtensionGate : DisplayIf.t :=
  {| DisplayIf.extensionId := "amazonwebservices.amazon-q-vscode";
     DisplayIf.ideVersion := Some (OtherClause "regex");
     DisplayIf.extensionVersion := Some (OtherClause "regex");
     DisplayIf.additionalCriteria :=
       Some [{| CriteriaCondition.type := "Bogus"; CriteriaCondition.values := [] |}] |}.

(** A gate whose second criterion is of no known type. *)
Definition bogusCriteriaGate : DisplayIf.t :=
  {| DisplayIf.extensionId := toolkit;
     DisplayIf.ideVersion := None;
     DisplayIf.extensionVersion := None;
     DisplayIf.additionalCriteria :=
       Some [{| CriteriaCondition.type := "OS"; CriteriaCondition.values := ["LINUX"] |};
             {| CriteriaCondition.type := "Bogus"; CriteriaCondition.values := [] |}] |}.

(** A host with one active and one inactive extension, and the state of a
    user without any connection. *)
Definition sampleHost : vscode.Host :=
  {| vscode.version := "1.50.0";
     vscode.extensions_all :=
       [{| vscode.id := "ms-python.python"; vscode.isActive := true;
           vscode.packageJSON_version := "2024.0.1" |};
        {| vscode.id := "redhat.vscode-yaml"; vscode.isActive := false;
           vscode.packageJSON_version := "1.14.0" |}];
     vscode.getOperatingSystem := "LINUX";
     vscode.getComputeEnvType := "local" |}.

Definition sampleExtensionContext : vscode.ExtensionContext :=
  {| vscode.extension :=
       {| vscode.id := toolkit; vscode.isActive := true;
          vscode.packageJSON_version := "3.0.0" |} |}.

Definition sampleAuthState : AuthState :=
  {| authEnabledConnections := "";
     awsRegion := None;
     authStatus := "notConnected";
     authScopes := None |}.

(** A gate for the toolkit whose ideVersion clause asks for 2.0.0 or later,
    and whose extensionVersion clause and criterion are of no known
    variant. *)
Definition failingIdeVersionGate : DisplayIf.t :=
  {| DisplayIf.extensionId := toolkit;
     DisplayIf.ideVersion := Some (Range (Some "2.0.0") None);
     DisplayIf.extensionVersion := Some (OtherClause "regex");
     DisplayIf.additionalCriteria :=
       Some [{| CriteriaCondition.type := "Bogus"; CriteriaCondition.values := [] |}] |}.

(** ** Vocabulary of the further properties *)

(** The character [c] stands somewhere in [s]. *)
Fixpoint occurs (c : ascii) (s : string) : bool :=
  match s with
  | EmptyString => false
  | String c' rest => Ascii.eqb c' c || occurs c rest
  end.


(** * Text utilities

    The string helpers of the second source file ([truncate],
    [truncateProps], [encodeHTML], [convertToTimeString], [toBase64URL]).
    A JavaScript string is the sequence of its units, a [number] argument
    is an integer, and an object is the finite map of its own properties. *)

(** ** String primitives *)

Fixpoint takeUnits (n : nat) (s : string) : string :=
  match n, s with
  | S n', String c rest => String c (takeUnits n' rest)
  | _, _ => ""
  end.

Fixpoint dropUnits (n : nat) (s : string) : string :=
  match n, s with
  | S n', String _ rest => dropUnits n' rest
  | _, _ => s
  end.

(** An index argument of [substring]: below zero it counts as zero, beyond
    the length as the length. *)
Definition clampIndex (len : nat) (i : Z) : nat :=
  Z.to_nat (Z.min (Z.max i 0) (Z.of_nat len)).

(** [String.prototype.substring]: the units from the smaller of the two
    clamped indices up to the larger one. *)
Definition substring (s : string) (indexStart indexEnd : Z) : string :=
  let a := clampIndex (String.length s) indexStart in
  let b := clampIndex (String.length s) indexEnd in
  takeUnits (Nat.max a b - Nat.min a b) (dropUnits (Nat.min a b) s).

(** [s.replace(/c/g, by)] for a pattern that is the one character [c] and
    a replacement without [$]. *)
Fixpoint replaceEach (c : ascii) (by_ : string) (s : string) : string :=
  match s with
  | EmptyString => ""
  | String c' rest =>
      if Ascii.eqb c' c then by_ +:+ replaceEach c by_ rest
      else String c' (replaceEach c by_ rest)
  end.

(** [s.replace(/c+$/, '')]: the pattern matches the run of [c] that ends
    the string, when there is one. *)
Fixpoint dropTrailing (c : ascii) (s : string) : string :=
  match s with
  | EmptyString => ""
  | String c' rest =>
      let rest' := dropTrailing c rest in
      if Ascii.eqb c' c && String.eqb rest' "" then "" else String c' rest'
  end.

Fixpoint lastUnit (s : string) : option ascii :=
  match s with
  | EmptyString => None
  | String c EmptyString => Some c
  | String _ rest => lastUnit rest
  end.

(** An integer, or [NaN], in a template literal: the decimal digits of an
    integer below 10^21 in magnitude (from there on JavaScript writes an
    exponent). *)
Definition number_to_string (n : option Z) : string :=
  match n with
  | Some z => NilZero.string_of_int (Z.to_int z)
  | None => "NaN"
  end.

(** ** truncate *)
Section truncate.

(** The default suffix, the one-unit string U+2026. *)
Variable ellipsis : string.

Definition truncate (s : string) (n : Z) (suffix : option string) : string :=
  let suffix := default ellipsis suffix in
  if (Z.of_nat (String.length s) <=? Z.abs n)%Z then s
  else
    let start := if (n <? 0)%Z then (Z.of_nat (String.length s) - Z.abs n)%Z else 0%Z in
    let end_ := if (n <? 0)%Z then Z.of_nat (String.length s) else n in
    let truncated := substring s start end_ in
    if (n <? 0)%Z then suffix +:+ truncated else truncated +:+ suffix.

(** ** truncateProps *)

(** A property value: a primitive string, or a value of another kind, on
    which [truncate] either returns its argument or throws for want of a
    [substring] method. *)
Section truncateProps.
Variable Other : Type.

Inductive Value : Type :=
| VString (s : string)
| VOther (v : Other).

Definition getOwnPropertyNames (obj : gmap string Value) : list string :=
  map fst (map_to_list obj).

Definition truncateProps (obj : gmap string Value) (len : Z)
    (propNames : option (list string)) (suffix : option string)
  : result (gmap string Value) :=
  if (len <=? 0)%Z then Throw (Error ("invalid len: " +:+ number_to_string (Some len)))
  else
    let r := obj in
    match propNames with
    | Some propNames =>
        Ok (fold_left
              (fun r propName =>
                 match r !! propName with
                 | Some (VString val) => <[propName := VString (truncate val len suffix)]> r
                 | _ => r
                 end)
              propNames r)
    | None =>
        Ok (fold_left
              (fun r propName =>
                 match r !! propName with
                 | Some (VString val) => <[propName := VString (truncate val len suffix)]> r
                 | _ => r
                 end)
              (getOwnPropertyNames r) r)
    end.

(** What [truncateProps] does to one value. *)
Definition truncateValue (len : Z) (suffix : option string) (v : Value) : Value :=
  match v with
  | VString s => VString (truncate s len suffix)
  | VOther _ => v
  end.

End truncateProps.
End truncate.

Arguments VString {Other} s.
Arguments VOther {Other} v.

(** ** encodeHTML and toBase64URL *)

Definition encodeHTML (str : string) : string :=
  replaceEach ">" "&gt;" (replaceEach "<" "&lt;" str).

Definition toBase64URL (base64 : string) : string :=
  dropTrailing "=" (replaceEach "/" "_" (replaceEach "+" "-" base64)).

(** ** convertToTimeString *)

(** [new Date(value)]: the time value, or [NaN] beyond 8.64e15. *)
Definition new_Date (value : Z) : option Z :=
  if (Z.abs value <=? 8640000000000000)%Z then Some value else None.

Definition getUTCHours (time : option Z) : option Z :=
  (fun t => (t / 3600000) mod 24)%Z <$> time.

Definition getUTCMinutes (time : option Z) : option Z :=
  (fun t => (t / 60000) mod 60)%Z <$> time.

Definition getUTCSeconds (time : option Z) : option Z :=
  (fun t => (t / 1000) mod 60)%Z <$> time.

(** [n > 0], false for [NaN]. *)
Definition isPositive (n : option Z) : bool :=
  match n with
  | Some z => (0 <? z)%Z
  | None => false
  end.

Definition convertToTimeString (durationInMs : Z) : string :=
  let time := new_Date durationInMs in
  let hours := getUTCHours time in
  let minutes := getUTCMinutes time in
  let seconds := getUTCSeconds time in
  let timeString := number_to_string seconds +:+ " sec" in
  let timeString :=
    if isPositive minutes then number_to_string minutes +:+ " min " +:+ timeString
    else timeString in
  let timeString :=
    if isPositive hours then number_to_string hours +:+ " hr " +:+ timeString
    else timeString in
  timeString.

(** * Properties *)

(** ** Induction over a condition tree, the sub-clauses of an [or] included *)
Section ConditionalClause_rect.
Variable P : ConditionalClause -> Prop.
Hypothesis P_range : forall lo hi, P (Range lo hi).
Hypothesis P_exactMatch : forall values, P (ExactMatch values).
Hypothesis P_or : forall clauses, Forall P clauses -> P (OR clauses).
Hypothesis P_other : forall type, P (OtherClause type).

Fixpoint clause_tree_ind (condition : ConditionalClause) : P condition :=
  match condition with
  | Range lo hi => P_range lo hi
  | ExactMatch values => P_exactMatch values
  | OR clauses =>
      P_or clauses
        ((fix all (cs : list ConditionalClause) : Forall P cs :=
            match cs with
            | [] => @List.Forall_nil _ P
            | c :: cs' => @List.Forall_cons _ P c cs' (clause_tree_ind c) (all cs')
            end) clauses)
  | OtherClause type => P_other type
  end.
End ConditionalClause_rect.

(** ** [Array_some] *)
Section Array_some_facts.
Context {A : Type} (f : A -> result bool).

Lemma Array_some_nil : Array_some f [] = Ok false.
Proof. reflexivity. Qed.

Lemma Array_some_cons x rest :
  Array_some f (x :: rest) =
    match f x with
    | Ok true => Ok true
    | Ok false => Array_some f rest
    | Throw e => Throw e
    end.
Proof. reflexivity. Qed.

Lemma Array_some_singleton x : Array_some f [x] = f x.
Proof. rewrite Array_some_cons. destruct (f x) as [[|]|e]; reflexivity. Qed.

(** The visit answers [true] exactly when it reaches an element on which
    the callback answers [true], every element before it having answered
    [false]. *)
Lemma Array_some_true arr :
  Array_some f arr = Ok true <->
  exists before x after,
    arr = before ++ x :: after /\ Forall (fun y => f y = Ok false) before /\ f x = Ok true.
Proof.
  induction arr as [|a arr IH]; rewrite ?Array_some_cons.
  - split; [discriminate|]. intros (before & x & after & E & _). destruct before; discriminate.
  - destruct (f a) as [[|]|e] eqn:Fa.
    + split; [|reflexivity]. intros _. exists [], a, arr. auto.
    + rewrite IH. split.
      * intros (before & x & after & -> & Hb & Hx).
        exists (a :: before), x, after. auto.
      * intros (before & x & after & E & Hb & Hx).
        destruct before as [|b before]; simpl in E; injection E as -> ->.
        -- congruence.
        -- apply Forall_cons_1 in Hb as [_ Hb]. exists before, x, after. auto.
    + split; [discriminate|].
      intros (before & x & after & E & Hb & Hx).
      destruct before as [|b before]; simpl in E; injection E as -> ->.
      * congruence.
      * apply Forall_cons_1 in Hb as [Hb _]. congruence.
Qed.

(** When the callback answers on every element, so does the visit, and its
    answer is [true] exactly when the callback's is on some element. *)
Lemma Array_some_total arr :
  Forall (fun x => exists b, f x = Ok b) arr ->
  exists b, Array_some f arr = Ok b /\ (b = true <-> exists x, In x arr /\ f x = Ok true).
Proof.
  induction 1 as [|a arr [b Fa] _ (b' & IH & Hb')]; rewrite ?Array_some_cons.
  - exists false. split; [reflexivity|]. split; [discriminate|]. intros (x & [] & _).
  - rewrite Fa. destruct b.
    + exists true. split; [reflexivity|]. split; [|reflexivity]. intros _. exists a. simpl. auto.
    + exists b'. split; [exact IH|]. rewrite Hb'. split.
      * intros (x & Hx & Fx). exists x. simpl. auto.
      * intros (x & [<- | Hx] & Fx); [congruence | eauto].
Qed.

(** A throw of the visit is a throw of the callback. *)
Lemma Array_some_throw arr e :
  Array_some f arr = Throw e -> exists x, In x arr /\ f x = Throw e.
Proof.
  induction arr as [|a arr IH]; rewrite ?Array_some_cons; [discriminate|].
  destruct (f a) as [[|]|e'] eqn:Fa; [discriminate| |].
  - intros H. destruct (IH H) as (x & Hx & Fx). exists x. simpl. auto.
  - intros [= ->]. exists a. simpl. auto.
Qed.

(** The visit throws when it reaches an element on which the callback
    throws. *)
Lemma Array_some_reach_throw before x after e :
  Forall (fun y => f y = Ok false) before ->
  f x = Throw e ->
  Array_some f (before ++ x :: after) = Throw e.
Proof.
  intros Hbefore Hx. induction Hbefore as [|y before Hy _ IH]; simpl.
  - rewrite Hx. reflexivity.
  - rewrite Hy. exact IH.
Qed.
End Array_some_facts.

(** ** The semver functions answer, or throw a [TypeError] *)
Section semver_facts.
Context {pkg : semver.Package}.

Lemma compare_valid a b :
  semver.valid a -> semver.valid b -> exists c, semver.compare a b = Ok c.
Proof.
  intros [x Ha] [y Hb]. unfold semver.compare, semver.new_SemVer.
  rewrite Ha, Hb. simpl. eauto.
Qed.

Lemma compare_throw a b e :
  semver.compare a b = Throw e -> exists message, e = TypeError message.
Proof.
  unfold semver.compare, semver.new_SemVer.
  destruct (semver.parse a); simpl; [destruct (semver.parse b); simpl|];
    intros [= <-]; eauto.
Qed.

Lemma gte_valid a b : semver.valid a -> semver.valid b -> exists r, semver.gte a b = Ok r.
Proof. intros Ha Hb. unfold semver.gte. destruct (compare_valid a b Ha Hb) as [c ->]. simpl. eauto. Qed.

Lemma lt_valid a b : semver.valid a -> semver.valid b -> exists r, semver.lt a b = Ok r.
Proof. intros Ha Hb. unfold semver.lt. destruct (compare_valid a b Ha Hb) as [c ->]. simpl. eauto. Qed.

Lemma eq_valid a b : semver.valid a -> semver.valid b -> exists r, semver.eq a b = Ok r.
Proof. intros Ha Hb. unfold semver.eq. destruct (compare_valid a b Ha Hb) as [c ->]. simpl. eauto. Qed.

Lemma gte_throw a b e : semver.gte a b = Throw e -> exists message, e = TypeError message.
Proof.
  unfold semver.gte. destruct (semver.compare a b) eqn:C; simpl; [discriminate|].
  intros [= <-]. eapply compare_throw, C.
Qed.

Lemma lt_throw a b e : semver.lt a b = Throw e -> exists message, e = TypeError message.
Proof.
  unfold semver.lt. destruct (semver.compare a b) eqn:C; simpl; [discriminate|].
  intros [= <-]. eapply compare_throw, C.
Qed.

Lemma eq_throw a b e : semver.eq a b = Throw e -> exists message, e = TypeError message.
Proof.
  unfold semver.eq. destruct (semver.compare a b) eqn:C; simpl; [discriminate|].
  intros [= <-]. eapply compare_throw, C.
Qed.
End semver_facts.

(** ** The version matcher *)
Section isValidVersion_facts.
Context {pkg : semver.Package}.

Lemma isValidVersion_or version clauses :
  isValidVersion version (OR clauses) = Array_some (isValidVersion version) clauses.
Proof. reflexivity. Qed.

Lemma unless_falsy_true bound test :
  unless_falsy bound test = Ok true <->
  unset bound \/ exists b, bound = Some b /\ test b = Ok true.
Proof.
  unfold unless_falsy, unset, truthy. destruct bound as [b|].
  - destruct (String.eqb_spec b "") as [->|Hb]; simpl.
    + split; auto.
    + split.
      * intros H. right. eauto.
      * intros [[|[=]]|(b' & [= <-] & H)]; congruence.
  - split; auto.
Qed.

(** A range answers [true] exactly when both of its constraints do. *)
Lemma isValidVersion_range_true version lo hi :
  isValidVersion version (Range lo hi) = Ok true <->
  unless_falsy lo (fun l => semver.gte version l) = Ok true
  /\ unless_falsy hi (fun u => semver.lt version u) = Ok true.
Proof.
  simpl.
  destruct (unless_falsy lo _) as [[|]|e]; simpl;
    destruct (unless_falsy hi _) as [[|]|e']; simpl;
    split; try tauto; try discriminate; intros [? ?]; discriminate.
Qed.
End isValidVersion_facts.

Section isValidVersion_claims.

(** C8. For every version, an [or] clause without sub-clauses answers
    [false], and an [or] clause with the single sub-clause [c] does what
    [c] alone does: the same answer, or the same throw. *)
Theorem or_empty_and_singleton :
  forall (pkg : semver.Package) (version : string),
    isValidVersion version (OR []) = Ok false
    /\ forall c, isValidVersion version (OR [c]) = isValidVersion version c.
Proof.
  intros pkg version. split; [reflexivity|].
  intros c. rewrite isValidVersion_or. apply Array_some_singleton.
Qed.

(** C9. A range bound given as the empty string is treated as an absent
    bound: for every version, a range whose [lowerInclusive] (or
    [upperExclusive]) is the empty string does exactly what the range
    without that bound does, so the empty bound constrains nothing and is
    never handed to the semver package. *)
Theorem empty_bound_is_absent_bound :
  forall (pkg : semver.Package) (version : string) (lo hi : option string),
    isValidVersion version (Range (Some "") hi) = isValidVersion version (Range None hi)
    /\ isValidVersion version (Range lo (Some "")) = isValidVersion version (Range lo None).
Proof. intros pkg version lo hi. split; reflexivity. Qed.

(** C2 as stated fails: against the range whose only bound is the lower
    bound [""], version 1.0.0 matches, although that bound is present and
    1.0.0 is not at least [""] in the order of the package (the comparison
    throws). *)
Lemma range_as_stated_fails_on_empty_bound :
  ~ (@isValidVersion node_semver.package "1.0.0" (Range (Some "") None) = Ok true
     <-> (Some "" = None \/ @atLeast node_semver.package "1.0.0" (Some ""))
         /\ (@None string = None \/ @below node_semver.package "1.0.0" None)).
Proof.
  intros [H _]. destruct (H eq_refl) as [[Habsent | (l & [= <-] & Hge)] _].
  - discriminate.
  - vm_compute in Hge. discriminate.
Qed.

(** C2 (amended). For every version v and every range clause, the version
    matcher returns true iff (lowerInclusive is absent or the empty string,
    or v >= lowerInclusive) and (upperExclusive is absent or the empty
    string, or v < upperExclusive), under the order of the semver package.
    For a range none of whose bounds is the empty string this is: iff
    (lowerInclusive is absent or v >= lowerInclusive) and (upperExclusive is
    absent or v < upperExclusive).  A version equal to upperExclusive does
    not match: 3.0.0 against the range with upperExclusive 3.0.0 yields
    false. *)
Theorem range_matches_iff_within_bounds :
  (forall (pkg : semver.Package) (version : string) (lo hi : option string),
     isValidVersion version (Range lo hi) = Ok true <->
     (unset lo \/ atLeast version lo) /\ (unset hi \/ below version hi))
  /\ (forall (pkg : semver.Package) (version : string) (lo hi : option string),
        lo <> Some "" -> hi <> Some "" ->
        (isValidVersion version (Range lo hi) = Ok true <->
         (lo = None \/ atLeast version lo) /\ (hi = None \/ below version hi)))
  /\ @isValidVersion node_semver.package "3.0.0" (Range None (Some "3.0.0")) = Ok false.
Proof.
  assert (Hiff : forall (pkg : semver.Package) version lo hi,
             isValidVersion version (Range lo hi) = Ok true <->
             (unset lo \/ atLeast version lo) /\ (unset hi \/ below version hi)).
  { intros pkg version lo hi.
    rewrite isValidVersion_range_true, !unless_falsy_true. reflexivity. }
  split; [exact Hiff|]. split; [|reflexivity].
  intros pkg version lo hi Hlo Hhi. rewrite Hiff. unfold unset. tauto.
Qed.

(** The second part of [range_matches_iff_within_bounds] on the range from
    2.0.0 to 3.0.0. *)
Lemma range_matches_iff_within_bounds_witness :
  Some "2.0.0" <> Some "" /\ Some "3.0.0" <> Some ""
  /\ (@isValidVersion node_semver.package "2.5.0" (Range (Some "2.0.0") (Some "3.0.0")) = Ok true
      <-> (Some "2.0.0" = None \/ @atLeast node_semver.package "2.5.0" (Some "2.0.0"))
          /\ (Some "3.0.0" = None \/ @below node_semver.package "2.5.0" (Some "3.0.0"))).
Proof.
  assert (Hlo : Some "2.0.0" <> Some "") by discriminate.
  assert (Hhi : Some "3.0.0" <> Some "") by discriminate.
  split; [exact Hlo|]. split; [exact Hhi|].
  exact (proj1 (proj2 range_matches_iff_within_bounds) node_semver.package "2.5.0" _ _ Hlo Hhi).
Defined.

(** C4 as stated fails: 1.2.3 is equal to the second entry of
    [["latest"; "1.2.3"]], yet the matcher does not return true: the entry
    "latest" is compared first and the package throws on it. *)
Lemma exactMatch_as_stated_fails_after_invalid_entry :
  ~ (@isValidVersion node_semver.package "1.2.3" (ExactMatch ["latest"; "1.2.3"]) = Ok true
     <-> exists entry, In entry ["latest"; "1.2.3"]
                       /\ @sameVersion node_semver.package entry "1.2.3").
Proof.
  intros [_ H].
  assert (Hret : @isValidVersion node_semver.package "1.2.3" (ExactMatch ["latest"; "1.2.3"]) = Ok true).
  { apply H. exists "1.2.3". split; [simpl; auto | reflexivity]. }
  vm_compute in Hret. discriminate.
Qed.

(** C4 (amended). For every version v and every exactMatch clause, the
    matcher returns true iff v is semantically equal to an entry of the
    clause's values and every entry before that one compared unequal to v
    (an entry or a version the package refuses makes the comparison throw
    when it is reached).  When every entry is a valid version this is: iff
    v is semantically equal to at least one entry.  The equality is that of
    the package, not of the strings: 1.2.3 matches ["1.2.3"] and also
    ["1.2.3+build.7"], and 1.2.4 does not match ["1.2.3"]. *)
Theorem exactMatch_matches_iff_equal_entry :
  (forall (pkg : semver.Package) (version : string) (values : list string),
     isValidVersion version (ExactMatch values) = Ok true <->
     exists before entry after,
       values = before ++ entry :: after
       /\ Forall (fun e => semver.eq e version = Ok false) before
       /\ sameVersion entry version)
  /\ (forall (pkg : semver.Package) (version : string) (values : list string),
        Forall semver.valid values ->
        (isValidVersion version (ExactMatch values) = Ok true <->
         exists entry, In entry values /\ sameVersion entry version))
  /\ @isValidVersion node_semver.package "1.2.3" (ExactMatch ["1.2.3"]) = Ok true
  /\ @isValidVersion node_semver.package "1.2.3" (ExactMatch ["1.2.3+build.7"]) = Ok true
  /\ @isValidVersion node_semver.package "1.2.4" (ExactMatch ["1.2.3"]) = Ok false.
Proof.
  split; [|split; [|repeat split; reflexivity]].
  - intros pkg version values. simpl. apply Array_some_true.
  - intros pkg version values Hvalid. simpl. unfold sameVersion.
    destruct (semver.parse version) as [v|message] eqn:Hv.
    + assert (Hall : Forall (fun e => exists b, semver.eq e version = Ok b) values).
      { eapply Forall_impl; [exact Hvalid|]. intros e He. apply eq_valid; [exact He|].
        exists v. exact Hv. }
      destruct (Array_some_total _ _ Hall) as (b & -> & Hb).
      rewrite <- Hb. split; congruence.
    + assert (Hthrow : forall e, semver.valid e -> semver.eq e version = Throw (TypeError message)).
      { intros e [x He]. unfold semver.eq, semver.compare, semver.new_SemVer.
        rewrite He, Hv. reflexivity. }
      split.
      * destruct Hvalid as [|e values He _]; [discriminate|].
        rewrite Array_some_cons, (Hthrow e He). discriminate.
      * intros (entry & Hin & Heq).
        rewrite Forall_forall in Hvalid. rewrite Hthrow in Heq; [discriminate|].
        apply Hvalid, list_elem_of_In, Hin.
Qed.

(** The second part of [exactMatch_matches_iff_equal_entry] on a clause
    with three valid entries. *)
Lemma exactMatch_matches_iff_equal_entry_witness :
  Forall (@semver.valid node_semver.package) ["1.2.2"; "1.2.3"; "2.0.0"]
  /\ (@isValidVersion node_semver.package "1.2.3" (ExactMatch ["1.2.2"; "1.2.3"; "2.0.0"]) = Ok true
      <-> exists entry, In entry ["1.2.2"; "1.2.3"; "2.0.0"]
                        /\ @sameVersion node_semver.package entry "1.2.3").
Proof.
  assert (Hvalid : Forall (@semver.valid node_semver.package) ["1.2.2"; "1.2.3"; "2.0.0"]).
  { repeat constructor; eexists; vm_compute; reflexivity. }
  split; [exact Hvalid|].
  exact (proj1 (proj2 exactMatch_matches_iff_equal_entry) node_semver.package "1.2.3" _ Hvalid).
Defined.

End isValidVersion_claims.

(** ** The criteria matcher *)
Section evaluateRule_facts.

Lemma has_new_Set (arr : list string) (x : string) :
  has (new_Set arr) x = true <-> x ∈ arr.
Proof.
  unfold has, new_Set. rewrite bool_decide_eq_true. apply elem_of_list_to_set.
Qed.

(** [i.some((v) => expectedSet.has(v))] *)
Lemma hasAnyOfExpected_true (expected i : list string) :
  some (fun v => has (new_Set expected) v) i = true <->
  exists v, v ∈ i /\ v ∈ expected.
Proof.
  unfold some. rewrite existsb_exists. split.
  - intros (v & Hin & Hhas). exists v. split.
    + apply list_elem_of_In, Hin.
    + apply has_new_Set, Hhas.
  - intros (v & Hin & Hexp). exists v. split.
    + apply list_elem_of_In, Hin.
    + apply has_new_Set, Hexp.
Qed.

Lemma evaluateRule_AuthType this values :
  evaluateRule this {| CriteriaCondition.type := "AuthType"; CriteriaCondition.values := values |}
  = Ok (some (fun v => has (new_Set values) v) (RuleContext.authTypes (context this))).
Proof. reflexivity. Qed.

Lemma evaluateRule_AuthRegion this values :
  evaluateRule this {| CriteriaCondition.type := "AuthRegion"; CriteriaCondition.values := values |}
  = Ok (some (fun v => has (new_Set values) v) (RuleContext.authRegions (context this))).
Proof. reflexivity. Qed.

Lemma evaluateRule_AuthState this values :
  evaluateRule this {| CriteriaCondition.type := "AuthState"; CriteriaCondition.values := values |}
  = Ok (some (fun v => has (new_Set values) v) (RuleContext.authStates (context this))).
Proof. reflexivity. Qed.

Lemma evaluateRule_unknown this criteria :
  CriteriaCondition.type criteria ∉ criteriaTypes ->
  evaluateRule this criteria
  = Throw (Error ("Unknown criteria type: " +:+ CriteriaCondition.type criteria)).
Proof.
  intros Hnot. unfold evaluateRule.
  repeat match goal with
  | |- context [String.eqb ?a ?b] =>
      destruct (String.eqb_spec a b) as [E|_];
      [exfalso; apply Hnot; rewrite E; unfold criteriaTypes; set_solver|]
  end.
  reflexivity.
Qed.

Lemma evaluateRule_recognized this criteria :
  recognizedCriteria criteria = true -> exists b, evaluateRule this criteria = Ok b.
Proof.
  unfold recognizedCriteria. rewrite bool_decide_eq_true.
  destruct criteria as [type values]. simpl. unfold criteriaTypes. intros Hin.
  repeat (apply elem_of_cons in Hin as [-> | Hin]); try (eexists; reflexivity).
  apply elem_of_nil in Hin. contradiction.
Qed.

(** The loop over the criteria runs to its end exactly when every criterion
    passes; it never leaves the method with [true]. *)
Lemma for_of_criteria_end this additionalCriteria :
  for_of_criteria this additionalCriteria = Ok None <->
  Forall (fun criteria => evaluateRule this criteria = Ok true) additionalCriteria.
Proof.
  induction additionalCriteria as [|c cs IH]; simpl.
  - split; auto.
  - rewrite Forall_cons. destruct (evaluateRule this c) as [[|]|e]; simpl.
    + rewrite IH. tauto.
    + split; [discriminate | intros [[=] _]].
    + split; [discriminate | intros [[=] _]].
Qed.

Lemma for_of_criteria_return this additionalCriteria value :
  for_of_criteria this additionalCriteria = Ok (Some value) -> value = false.
Proof.
  induction additionalCriteria as [|c cs IH]; simpl; [discriminate|].
  destruct (evaluateRule this c) as [[|]|e]; simpl; [exact IH | congruence | discriminate].
Qed.

(** The loop throws exactly when it reaches a criterion that throws, the
    criteria before it having passed. *)
Lemma for_of_criteria_throw this additionalCriteria e :
  for_of_criteria this additionalCriteria = Throw e <->
  exists before criteria after,
    additionalCriteria = before ++ criteria :: after
    /\ Forall (fun c => evaluateRule this c = Ok true) before
    /\ evaluateRule this criteria = Throw e.
Proof.
  induction additionalCriteria as [|c cs IH]; simpl.
  - split; [discriminate|]. intros (before & x & after & E & _). destruct before; discriminate.
  - destruct (evaluateRule this c) as [[|]|e'] eqn:Hc; simpl.
    + rewrite IH. split.
      * intros (before & x & after & -> & Hb & Hx). exists (c :: before), x, after. auto.
      * intros (before & x & after & E & Hb & Hx).
        destruct before as [|b before]; simpl in E; injection E as -> ->.
        -- congruence.
        -- apply Forall_cons_1 in Hb as [_ Hb]. exists before, x, after. auto.
    + split; [discriminate|].
      intros (before & x & after & E & Hb & Hx).
      destruct before as [|b before]; simpl in E; injection E as -> ->.
      * congruence.
      * apply Forall_cons_1 in Hb as [Hb _]. congruence.
    + split.
      * intros [= ->]. exists [], c, cs. auto.
      * intros (before & x & after & E & Hb & Hx).
        destruct before as [|b before]; simpl in E; injection E as -> ->.
        -- congruence.
        -- apply Forall_cons_1 in Hb as [Hb _]. congruence.
Qed.

Lemma for_of_criteria_recognized this additionalCriteria :
  forallb recognizedCriteria additionalCriteria = true ->
  exists returned, for_of_criteria this additionalCriteria = Ok returned.
Proof.
  induction additionalCriteria as [|c cs IH]; simpl; [eauto|].
  intros [Hc Hcs]%andb_prop.
  destruct (evaluateRule_recognized this c Hc) as [[|] ->]; simpl; eauto.
Qed.
End evaluateRule_facts.

Section evaluateRule_claims.

Lemma matchesAnyOfExpected_intro type field :
  (forall this values,
     evaluateRule this {| CriteriaCondition.type := type; CriteriaCondition.values := values |}
     = Ok (some (fun v => has (new_Set values) v) (field (context this)))) ->
  matchesAnyOfExpected type field.
Proof.
  intros Hrule this values criteria. unfold criteria. rewrite Hrule.
  split; [|split; [|split]].
  - destruct (some _ _); auto.
  - rewrite <- hasAnyOfExpected_true. split; congruence.
  - intros ->. reflexivity.
  - intros ->. f_equal. apply not_true_is_false. rewrite hasAnyOfExpected_true.
    intros (v & _ & Hv). apply elem_of_nil in Hv. exact Hv.
Qed.

(** C5. For every criterion of type AuthType, AuthRegion or AuthState, the
    criteria matcher returns a boolean, which is true iff at least one of
    the context's values for that field ([authTypes], [authRegions],
    [authStates]) is a member of the criterion's expected values; when the
    context's list is empty the result is false, and when the expected
    values list is empty the result is false. *)
Theorem auth_criteria_match_any_of_expected :
  matchesAnyOfExpected "AuthType" RuleContext.authTypes
  /\ matchesAnyOfExpected "AuthRegion" RuleContext.authRegions
  /\ matchesAnyOfExpected "AuthState" RuleContext.authStates.
Proof.
  split; [|split]; apply matchesAnyOfExpected_intro.
  - apply evaluateRule_AuthType.
  - apply evaluateRule_AuthRegion.
  - apply evaluateRule_AuthState.
Qed.

End evaluateRule_claims.

(** ** The gate *)
Section evaluate_facts.
Context {pkg : semver.Package}.
Variable currentExt : string.

Lemma evaluate_steps this condition :
  evaluate currentExt this condition =
    if negb (String.eqb (DisplayIf.extensionId condition) currentExt) then Ok false
    else
      let* ideOk := versionGate (RuleContext.ideVersion (context this)) (DisplayIf.ideVersion condition) in
      if negb ideOk then Ok false
      else
        let* extensionOk :=
          versionGate (RuleContext.extensionVersion (context this)) (DisplayIf.extensionVersion condition) in
        if negb extensionOk then Ok false
        else
          let* returned := criteriaGate this (DisplayIf.additionalCriteria condition) in
          match returned with
          | Some value => Ok value
          | None => Ok true
          end.
Proof. reflexivity. Qed.

Lemma versionGate_true version clause :
  versionGate version clause = Ok true <-> absentOrMatches version clause.
Proof.
  unfold absentOrMatches. destruct clause as [c|]; simpl.
  - split.
    + intros H. right. eauto.
    + intros [[=] | (c' & [= <-] & H)]. exact H.
  - split; auto.
Qed.

Lemma criteriaGate_end this additionalCriteria :
  criteriaGate this additionalCriteria = Ok None <-> criteriaPass this additionalCriteria.
Proof.
  unfold criteriaPass. destruct additionalCriteria as [cs|]; simpl.
  - apply for_of_criteria_end.
  - split; auto.
Qed.

Lemma criteriaGate_return this additionalCriteria value :
  criteriaGate this additionalCriteria = Ok (Some value) -> value = false.
Proof.
  destruct additionalCriteria as [cs|]; simpl; [apply for_of_criteria_return | discriminate].
Qed.

Lemma evaluate_true this condition :
  evaluate currentExt this condition = Ok true <->
  DisplayIf.extensionId condition = currentExt
  /\ absentOrMatches (RuleContext.ideVersion (context this)) (DisplayIf.ideVersion condition)
  /\ absentOrMatches (RuleContext.extensionVersion (context this)) (DisplayIf.extensionVersion condition)
  /\ criteriaPass this (DisplayIf.additionalCriteria condition).
Proof.
  rewrite evaluate_steps, <- !versionGate_true, <- criteriaGate_end.
  destruct (String.eqb_spec (DisplayIf.extensionId condition) currentExt) as [Hid|Hid]; simpl.
  2: { split; [discriminate | intros [? _]; contradiction]. }
  destruct (versionGate _ (DisplayIf.ideVersion condition)) as [[|]|e1]; simpl.
  2, 3: split; [discriminate | intros (_ & [=] & _)].
  destruct (versionGate _ (DisplayIf.extensionVersion condition)) as [[|]|e2]; simpl.
  2, 3: split; [discriminate | intros (_ & _ & [=] & _)].
  destruct (criteriaGate this _) as [[value|]|e3] eqn:Hc; simpl.
  - apply criteriaGate_return in Hc as ->. split; [discriminate | intros (_ & _ & _ & [=])].
  - tauto.
  - split; [discriminate | intros (_ & _ & _ & [=])].
Qed.

Lemma evaluate_other_extension this condition :
  DisplayIf.extensionId condition <> currentExt ->
  evaluate currentExt this condition = Ok false.
Proof.
  intros Hid. rewrite evaluate_steps.
  destruct (String.eqb_spec (DisplayIf.extensionId condition) currentExt); [contradiction|].
  reflexivity.
Qed.

(** A throw of a step that is reached is the throw of [evaluate]. *)
Lemma evaluate_throw_ideVersion this condition e :
  DisplayIf.extensionId condition = currentExt ->
  versionGate (RuleContext.ideVersion (context this)) (DisplayIf.ideVersion condition) = Throw e ->
  evaluate currentExt this condition = Throw e.
Proof.
  intros Hid Hide. rewrite evaluate_steps, Hid, String.eqb_refl, Hide. reflexivity.
Qed.

Lemma evaluate_throw_extensionVersion this condition e :
  DisplayIf.extensionId condition = currentExt ->
  absentOrMatches (RuleContext.ideVersion (context this)) (DisplayIf.ideVersion condition) ->
  versionGate (RuleContext.extensionVersion (context this)) (DisplayIf.extensionVersion condition) = Throw e ->
  evaluate currentExt this condition = Throw e.
Proof.
  intros Hid Hide%versionGate_true Hext.
  rewrite evaluate_steps, Hid, String.eqb_refl, Hide. simpl. rewrite Hext. reflexivity.
Qed.

Lemma evaluate_throw_criteria this condition e :
  DisplayIf.extensionId condition = currentExt ->
  absentOrMatches (RuleContext.ideVersion (context this)) (DisplayIf.ideVersion condition) ->
  absentOrMatches (RuleContext.extensionVersion (context this)) (DisplayIf.extensionVersion condition) ->
  criteriaGate this (DisplayIf.additionalCriteria condition) = Throw e ->
  evaluate currentExt this condition = Throw e.
Proof.
  intros Hid Hide%versionGate_true Hext%versionGate_true Hcrit.
  rewrite evaluate_steps, Hid, String.eqb_refl, Hide. simpl. rewrite Hext. simpl.
  rewrite Hcrit. reflexivity.
Qed.
End evaluate_facts.

(** ** The version matcher on a tree of known variants *)
Section recognized_facts.
Context {pkg : semver.Package}.

Lemma unless_falsy_throw bound test e :
  unless_falsy bound test = Throw e -> exists b, In b (boundVersions bound) /\ test b = Throw e.
Proof.
  unfold unless_falsy, boundVersions. destruct bound as [b|]; [|discriminate].
  destruct (truthy (Some b)); simpl; [|discriminate].
  intros H. exists b. auto.
Qed.

Lemma unless_falsy_answers bound test :
  Forall (fun b => exists r, test b = Ok r) (boundVersions bound) ->
  exists r, unless_falsy bound test = Ok r.
Proof.
  unfold unless_falsy, boundVersions. destruct bound as [b|]; [|eauto].
  destruct (truthy (Some b)); simpl; [|eauto].
  intros [H _]%Forall_cons_1. exact H.
Qed.

(** The only throw of a tree of known variants is the [TypeError] of a
    comparison. *)
Lemma isValidVersion_recognized_throw version condition e :
  recognizedClause condition = true ->
  isValidVersion version condition = Throw e ->
  exists message, e = TypeError message.
Proof.
  revert e. induction condition as [lo hi|values|clauses IH|type] using clause_tree_ind;
    intros e Hrec Hthrow; simpl in *.
  - destruct (unless_falsy lo _) as [lower|e1] eqn:Hlo; simpl in Hthrow.
    + destruct (unless_falsy hi _) as [upper|e2] eqn:Hhi; simpl in Hthrow; [discriminate|].
      injection Hthrow as ->. apply unless_falsy_throw in Hhi as (u & _ & Hu).
      eapply lt_throw, Hu.
    + injection Hthrow as ->. apply unless_falsy_throw in Hlo as (l & _ & Hl).
      eapply gte_throw, Hl.
  - apply Array_some_throw in Hthrow as (v & _ & Hv). eapply eq_throw, Hv.
  - apply Array_some_throw in Hthrow as (c & Hin & Hc).
    rewrite Forall_forall in IH. rewrite forallb_forall in Hrec.
    eapply IH; [apply list_elem_of_In, Hin | apply Hrec, Hin | exact Hc].
  - discriminate.
Qed.

(** A tree of known variants whose version strings are all valid answers
    on a valid version. *)
Lemma isValidVersion_recognized_answers version condition :
  recognizedClause condition = true ->
  semver.valid version ->
  Forall semver.valid (clauseVersions condition) ->
  exists b, isValidVersion version condition = Ok b.
Proof.
  intros Hrec Hversion. revert Hrec.
  induction condition as [lo hi|values|clauses IH|type] using clause_tree_ind;
    intros Hrec Hvalid; simpl in *.
  - apply Forall_app in Hvalid as [Hlo Hhi].
    destruct (unless_falsy_answers lo (fun l => semver.gte version l)) as [lower ->].
    { eapply Forall_impl; [exact Hlo|]. intros l Hl. apply gte_valid; assumption. }
    destruct (unless_falsy_answers hi (fun u => semver.lt version u)) as [upper ->].
    { eapply Forall_impl; [exact Hhi|]. intros u Hu. apply lt_valid; assumption. }
    simpl. eauto.
  - destruct (Array_some_total (fun v => semver.eq v version) values) as (b & Hb & _); [|eauto].
    eapply Forall_impl; [exact Hvalid|]. intros v Hv. apply eq_valid; assumption.
  - destruct (Array_some_total (fun clause => isValidVersion version clause) clauses) as (b & Hb & _);
      [|eauto].
    induction IH as [|c clauses Hc _ IHclauses]; [constructor|].
    simpl in Hrec, Hvalid. apply andb_prop in Hrec as [Hrc Hrcs].
    apply Forall_app in Hvalid as [Hvc Hvcs].
    constructor; [apply Hc; assumption | apply IHclauses; assumption].
  - discriminate.
Qed.

Lemma versionGate_recognized_throw version clause e :
  recognizedGate clause = true ->
  versionGate version clause = Throw e ->
  exists message, e = TypeError message.
Proof.
  destruct clause as [c|]; simpl; [apply isValidVersion_recognized_throw | discriminate].
Qed.

Lemma versionGate_recognized_answers version clause :
  recognizedGate clause = true ->
  semver.valid version ->
  Forall semver.valid (gateVersions clause) ->
  exists b, versionGate version clause = Ok b.
Proof.
  destruct clause as [c|]; simpl; [apply isValidVersion_recognized_answers | eauto].
Qed.

Lemma criteriaGate_recognized this additionalCriteria :
  forallb recognizedCriteria (default [] additionalCriteria) = true ->
  exists returned, criteriaGate this additionalCriteria = Ok returned.
Proof.
  destruct additionalCriteria as [cs|]; simpl; [apply for_of_criteria_recognized | eauto].
Qed.
End recognized_facts.

Section shouldDisplayNotification_claims.

(** C1. For every ToolkitNotification, shouldDisplayNotification returns
    true if and only if displayIf.extensionId equals the id of the running
    extension, and the ideVersion clause is absent or matches
    context.ideVersion, and the extensionVersion clause is absent or
    matches context.extensionVersion, and every criterion of
    additionalCriteria passes against the context (an absent or an empty
    list has none that fails). *)
Theorem shouldDisplayNotification_iff_gate_satisfied :
  forall (pkg : semver.Package) (currentExt : string)
         (this : RuleEngine) (payload : ToolkitNotification),
    shouldDisplayNotification currentExt this payload = Ok true <->
    DisplayIf.extensionId (displayIf payload) = currentExt
    /\ absentOrMatches (RuleContext.ideVersion (context this))
                       (DisplayIf.ideVersion (displayIf payload))
    /\ absentOrMatches (RuleContext.extensionVersion (context this))
                       (DisplayIf.extensionVersion (displayIf payload))
    /\ criteriaPass this (DisplayIf.additionalCriteria (displayIf payload)).
Proof. intros pkg currentExt this payload. apply evaluate_true. Qed.

(** C6. For every DisplayIf whose extensionId differs from the id of the
    running extension, shouldDisplayNotification returns false, whatever
    ideVersion, extensionVersion and additionalCriteria hold: they are not
    evaluated, so no error is raised even by a clause or a criterion of an
    unknown variant. *)
Theorem other_extension_never_displays :
  forall (pkg : semver.Package) (currentExt : string)
         (this : RuleEngine) (payload : ToolkitNotification),
    DisplayIf.extensionId (displayIf payload) <> currentExt ->
    shouldDisplayNotification currentExt this payload = Ok false.
Proof. intros pkg currentExt this payload. apply evaluate_other_extension. Qed.

(** C7. Evaluating a ConditionalClause whose tag is outside range,
    exactMatch and or raises the error "Unknown clause type: <tag>", and
    evaluating a CriteriaCondition whose type is outside the eight kinds
    raises the error "Unknown criteria type: <type>".  The error is not
    swallowed on the way up: an [or] clause that reaches such a sub-clause
    raises it, and so does shouldDisplayNotification when its gate reaches
    such a clause (as ideVersion, or as extensionVersion once ideVersion
    has passed) or such a criterion (once both versions and the criteria
    before it have passed); no boolean is returned. *)
Theorem unknown_variant_raises_and_propagates :
  forall (pkg : semver.Package) (currentExt : string) (this : RuleEngine),
    (forall version condition,
       clauseType condition ∉ clauseTypes ->
       isValidVersion version condition
       = Throw (Error ("Unknown clause type: " +:+ clauseType condition)))
    /\ (forall criteria,
          CriteriaCondition.type criteria ∉ criteriaTypes ->
          evaluateRule this criteria
          = Throw (Error ("Unknown criteria type: " +:+ CriteriaCondition.type criteria)))
    /\ (forall version before condition after,
          Forall (fun c => isValidVersion version c = Ok false) before ->
          clauseType condition ∉ clauseTypes ->
          isValidVersion version (OR (before ++ condition :: after))
          = Throw (Error ("Unknown clause type: " +:+ clauseType condition)))
    /\ (forall payload condition,
          DisplayIf.extensionId (displayIf payload) = currentExt ->
          DisplayIf.ideVersion (displayIf payload) = Some condition ->
          clauseType condition ∉ clauseTypes ->
          shouldDisplayNotification currentExt this payload
          = Throw (Error ("Unknown clause type: " +:+ clauseType condition)))
    /\ (forall payload condition,
          DisplayIf.extensionId (displayIf payload) = currentExt ->
          absentOrMatches (RuleContext.ideVersion (context this))
                          (DisplayIf.ideVersion (displayIf payload)) ->
          DisplayIf.extensionVersion (displayIf payload) = Some condition ->
          clauseType condition ∉ clauseTypes ->
          shouldDisplayNotification currentExt this payload
          = Throw (Error ("Unknown clause type: " +:+ clauseType condition)))
    /\ (forall payload before criteria after,
          DisplayIf.extensionId (displayIf payload) = currentExt ->
          absentOrMatches (RuleContext.ideVersion (context this))
                          (DisplayIf.ideVersion (displayIf payload)) ->
          absentOrMatches (RuleContext.extensionVersion (context this))
                          (DisplayIf.extensionVersion (displayIf payload)) ->
          DisplayIf.additionalCriteria (displayIf payload) = Some (before ++ criteria :: after) ->
          Forall (fun c => evaluateRule this c = Ok true) before ->
          CriteriaCondition.type criteria ∉ criteriaTypes ->
          shouldDisplayNotification currentExt this payload
          = Throw (Error ("Unknown criteria type: " +:+ CriteriaCondition.type criteria))).
Proof.
  intros pkg currentExt this.
  assert (Hclause : forall version condition,
             clauseType condition ∉ clauseTypes ->
             isValidVersion version condition
             = Throw (Error ("Unknown clause type: " +:+ clauseType condition))).
  { intros version [lo hi|values|clauses|type] Hnot; simpl in *;
      try (exfalso; apply Hnot; unfold clauseTypes; set_solver).
    reflexivity. }
  split; [exact Hclause|]. split; [apply evaluateRule_unknown|].
  split; [|split; [|split]].
  - intros version before condition after Hbefore Hnot.
    rewrite isValidVersion_or. apply Array_some_reach_throw; [exact Hbefore|].
    apply Hclause, Hnot.
  - intros payload condition Hid Hide Hnot. apply evaluate_throw_ideVersion; [exact Hid|].
    rewrite Hide. simpl. apply Hclause, Hnot.
  - intros payload condition Hid Hide Hext Hnot.
    apply evaluate_throw_extensionVersion; [exact Hid | exact Hide |].
    rewrite Hext. simpl. apply Hclause, Hnot.
  - intros payload before criteria after Hid Hide Hext Hcrit Hbefore Hnot.
    apply evaluate_throw_criteria; [exact Hid | exact Hide | exact Hext |].
    rewrite Hcrit. simpl. apply for_of_criteria_throw.
    exists before, criteria, after. split; [reflexivity|]. split; [exact Hbefore|].
    apply evaluateRule_unknown, Hnot.
Qed.

(** C3 (amended). For every input whose condition tree uses only the
    variants range, exactMatch and or and the eight criteria types,
    shouldDisplayNotification returns a boolean or raises the TypeError of
    the semver package for a string that is not a valid version, and no
    other error; it returns a boolean whenever the two versions of the
    context, the non-empty bounds of the ranges and the entries of the
    exact matches are valid versions, empty lists and absent fields
    included. *)
Theorem known_variants_resolve_unless_invalid_version :
  forall (pkg : semver.Package) (currentExt : string)
         (this : RuleEngine) (payload : ToolkitNotification),
    recognized (displayIf payload) = true ->
    ((exists b, shouldDisplayNotification currentExt this payload = Ok b)
     \/ (exists message, shouldDisplayNotification currentExt this payload = Throw (TypeError message)))
    /\ (versionsValid this (displayIf payload) ->
        exists b, shouldDisplayNotification currentExt this payload = Ok b).
Proof.
  intros pkg currentExt this [condition]. unfold shouldDisplayNotification, recognized. simpl.
  intros [[Hide Hext]%andb_prop Hcrit]%andb_prop.
  rewrite evaluate_steps.
  destruct (negb _); [split; eauto|].
  pose proof (versionGate_recognized_throw (RuleContext.ideVersion (context this))
                (DisplayIf.ideVersion condition)) as Tide.
  pose proof (versionGate_recognized_answers (RuleContext.ideVersion (context this)) _ Hide) as Aide.
  pose proof (versionGate_recognized_throw (RuleContext.extensionVersion (context this))
                (DisplayIf.extensionVersion condition)) as Text.
  pose proof (versionGate_recognized_answers (RuleContext.extensionVersion (context this)) _ Hext) as Aext.
  destruct (criteriaGate_recognized this _ Hcrit) as [returned Hreturned].
  destruct (versionGate _ (DisplayIf.ideVersion condition)) as [[|]|e1]; simpl.
  - destruct (versionGate _ (DisplayIf.extensionVersion condition)) as [[|]|e2]; simpl.
    + rewrite Hreturned. simpl. destruct returned; split; eauto.
    + split; eauto.
    + destruct (Text e2 Hext eq_refl) as [message ->]. split; [eauto|].
      intros (_ & Hv & _ & Hvs). destruct (Aext Hv Hvs) as [b [=]].
  - split; eauto.
  - destruct (Tide e1 Hide eq_refl) as [message ->]. split; [eauto|].
    intros (Hv & _ & Hvs & _). destruct (Aide Hv Hvs) as [b [=]].
Qed.

End shouldDisplayNotification_claims.

Section getRuleContext_claims.

(** C10. In every RuleContext that getRuleContext produces, each active
    extension id is also in the list of installed extension ids: both lists
    come from the same enumeration of the extensions, the active one
    through a filter. *)
Theorem active_extensions_are_installed :
  forall (host : vscode.Host) (context : vscode.ExtensionContext) (authState : AuthState),
    incl (RuleContext.activeExtensions (getRuleContext host context authState))
         (RuleContext.installedExtensions (getRuleContext host context authState)).
Proof.
  intros host context authState id. simpl. rewrite !in_map_iff.
  intros (e & Hid & Hin). apply filter_In in Hin as [Hin _]. eauto.
Qed.

End getRuleContext_claims.

(** ** Concrete runs *)
Section runs.
#[local] Existing Instance node_semver.package.

(** The four end-to-end scenarios of the specification. *)
Example scenario_lower_bound :
  shouldDisplayNotification toolkit engine
    (notification {| DisplayIf.extensionId := toolkit;
                     DisplayIf.ideVersion := None;
                     DisplayIf.extensionVersion := Some (Range (Some "2.0.0") None);
                     DisplayIf.additionalCriteria := None |})
  = Ok true.
Proof. reflexivity. Qed.

Example scenario_upper_bound :
  shouldDisplayNotification toolkit engine
    (notification {| DisplayIf.extensionId := toolkit;
                     DisplayIf.ideVersion := None;
                     DisplayIf.extensionVersion := Some (Range None (Some "3.0.0"));
                     DisplayIf.additionalCriteria := None |})
  = Ok false.
Proof. reflexivity. Qed.

Example scenario_auth_state :
  shouldDisplayNotification toolkit engine
    (notification {| DisplayIf.extensionId := toolkit;
                     DisplayIf.ideVersion := None;
                     DisplayIf.extensionVersion := None;
                     DisplayIf.additionalCriteria :=
                       Some [{| CriteriaCondition.type := "AuthState";
                                CriteriaCondition.values := ["connected"] |}] |})
  = Ok false.
Proof. vm_compute. reflexivity. Qed.

Example scenario_bogus_criteria :
  shouldDisplayNotification toolkit engine
    (notification {| DisplayIf.extensionId := toolkit;
                     DisplayIf.ideVersion := None;
                     DisplayIf.extensionVersion := None;
                     DisplayIf.additionalCriteria :=
                       Some [{| CriteriaCondition.type := "Bogus";
                                CriteriaCondition.values := [] |}] |})
  = Throw (Error "Unknown criteria type: Bogus").
Proof. reflexivity. Qed.

(** The criteria of the other kinds, on the examples of the specification. *)
Example superset_criteria :
  let this := new_RuleEngine (withInstalled ["a"; "b"; "c"]) in
  evaluateRule this {| CriteriaCondition.type := "InstalledExtensions";
                       CriteriaCondition.values := ["a"; "b"] |} = Ok true
  /\ evaluateRule this {| CriteriaCondition.type := "InstalledExtensions";
                          CriteriaCondition.values := ["a"; "d"] |} = Ok false.
Proof. split; vm_compute; reflexivity. Qed.

Example set_equality_criteria :
  let this := new_RuleEngine (withScopes ["x"; "y"]) in
  evaluateRule this {| CriteriaCondition.type := "AuthScopes";
                       CriteriaCondition.values := ["y"; "x"] |} = Ok true
  /\ evaluateRule this {| CriteriaCondition.type := "AuthScopes";
                          CriteriaCondition.values := ["x"] |} = Ok false
  /\ evaluateRule this {| CriteriaCondition.type := "AuthScopes";
                          CriteriaCondition.values := ["x"; "y"; "z"] |} = Ok false.
Proof. repeat split; vm_compute; reflexivity. Qed.

(** C3 as stated fails: the gate below uses the range variant only, and
    shouldDisplayNotification raises the TypeError of the semver package,
    which refuses the bound "1.21", instead of returning a boolean. *)
Lemma known_variants_may_raise_TypeError :
  recognized invalidBoundGate = true
  /\ shouldDisplayNotification toolkit engine (notification invalidBoundGate)
     = Throw (TypeError "Invalid Version: 1.21")
  /\ ~ (exists b, shouldDisplayNotification toolkit engine (notification invalidBoundGate) = Ok b).
Proof.
  split; [reflexivity|]. split; [reflexivity|]. intros [b Hb]. vm_compute in Hb. discriminate.
Qed.

(** [known_variants_resolve_unless_invalid_version] on a gate with empty
    lists and an absent field. *)
Lemma known_variants_resolve_unless_invalid_version_witness :
  recognized validGate = true
  /\ versionsValid engine validGate
  /\ exists b, shouldDisplayNotification toolkit engine (notification validGate) = Ok b.
Proof.
  assert (Hrec : recognized validGate = true) by reflexivity.
  assert (Hvalid : versionsValid engine validGate).
  { repeat split; repeat constructor; eexists; vm_compute; reflexivity. }
  split; [exact Hrec|]. split; [exact Hvalid|].
  exact (proj2 (known_variants_resolve_unless_invalid_version node_semver.package toolkit engine
                  (notification validGate) Hrec) Hvalid).
Defined.

(** [other_extension_never_displays] on a gate for another extension, all
    of whose other fields would throw if they were evaluated. *)
Lemma other_extension_never_displays_witness :
  DisplayIf.extensionId otherExtensionGate <> toolkit
  /\ isValidVersion "1.50.0" (OtherClause "regex") = Throw (Error "Unknown clause type: regex")
  /\ shouldDisplayNotification toolkit engine (notification otherExtensionGate) = Ok false.
Proof.
  assert (Hid : DisplayIf.extensionId otherExtensionGate <> toolkit) by discriminate.
  split; [exact Hid|]. split; [reflexivity|].
  exact (other_extension_never_displays node_semver.package toolkit engine (notification otherExtensionGate) Hid).
Defined.

(** [unknown_variant_raises_and_propagates] on the unknown criterion
    "Bogus", reached after a criterion that passes. *)
Lemma unknown_variant_raises_and_propagates_witness :
  ("Bogus" ∉ criteriaTypes)
  /\ shouldDisplayNotification toolkit engine (notification bogusCriteriaGate)
     = Throw (Error "Unknown criteria type: Bogus").
Proof.
  assert (Hnot : "Bogus" ∉ criteriaTypes).
  { apply (bool_decide_unpack _). vm_compute. exact I. }
  split; [exact Hnot|].
  destruct (unknown_variant_raises_and_propagates node_semver.package toolkit engine)
    as (_ & _ & _ & _ & _ & Hcriteria).
  refine (Hcriteria (notification bogusCriteriaGate)
            [{| CriteriaCondition.type := "OS"; CriteriaCondition.values := ["LINUX"] |}]
            {| CriteriaCondition.type := "Bogus"; CriteriaCondition.values := [] |}
            [] eq_refl _ _ eq_refl _ Hnot).
  - left. reflexivity.
  - left. reflexivity.
  - repeat constructor.
Defined.

(** [auth_criteria_match_any_of_expected] on a context without an active
    region. *)
Lemma auth_criteria_match_any_of_expected_witness :
  RuleContext.authRegions sampleContextNoRegion = []
  /\ evaluateRule (new_RuleEngine sampleContextNoRegion)
       {| CriteriaCondition.type := "AuthRegion"; CriteriaCondition.values := ["us-east-1"] |}
     = Ok false.
Proof.
  split; [reflexivity|].
  destruct auth_criteria_match_any_of_expected as (_ & Hregion & _).
  destruct (Hregion (new_RuleEngine sampleContextNoRegion) ["us-east-1"]) as (_ & _ & Hempty & _).
  exact (Hempty eq_refl).
Defined.

End runs.

(** * Further properties of the rule engine *)

(** ** The criteria of the other kinds *)
Section more_criteria.

(** [expected.every((v) => s.has(v))] *)
Lemma every_has_true (i expected : list string) :
  every (fun v => has (new_Set i) v) expected = true <->
  forall v, v ∈ expected -> v ∈ i.
Proof.
  unfold every. rewrite forallb_forall. split.
  - intros H v Hv. apply has_new_Set, H, list_elem_of_In, Hv.
  - intros H v Hv. apply has_new_Set, H, list_elem_of_In, Hv.
Qed.

Lemma has_bool_decide (arr : list string) (x : string) :
  has (new_Set arr) x = bool_decide (x ∈ arr).
Proof. unfold has, new_Set. apply bool_decide_ext, elem_of_list_to_set. Qed.

(** X1. A criterion of type OS (ComputeEnv) returns a boolean, which is
    true exactly when the [os] (the [computeEnv]) of the context is one of
    the criterion's values, compared as strings. *)
Theorem os_and_computeEnv_criteria_test_membership :
  forall (this : RuleEngine) (values : list string),
    evaluateRule this {| CriteriaCondition.type := "OS"; CriteriaCondition.values := values |}
    = Ok (bool_decide (RuleContext.os (context this) ∈ values))
    /\ evaluateRule this {| CriteriaCondition.type := "ComputeEnv"; CriteriaCondition.values := values |}
       = Ok (bool_decide (RuleContext.computeEnv (context this) ∈ values)).
Proof.
  intros this values. split.
  - change (Ok (has (new_Set values) (RuleContext.os (context this))) =
            Ok (bool_decide (RuleContext.os (context this) ∈ values))).
    f_equal. apply has_bool_decide.
  - change (Ok (has (new_Set values) (RuleContext.computeEnv (context this))) =
            Ok (bool_decide (RuleContext.computeEnv (context this) ∈ values))).
    f_equal. apply has_bool_decide.
Qed.

(** X2. A criterion of type AuthScopes returns a boolean, which is true
    exactly when the context's scopes and the criterion's values have the
    same members: neither the order nor a repetition in either list
    matters. *)
Theorem authScopes_criteria_test_set_equality :
  forall (this : RuleEngine) (values : list string),
    let criteria := {| CriteriaCondition.type := "AuthScopes"; CriteriaCondition.values := values |} in
    (evaluateRule this criteria = Ok true \/ evaluateRule this criteria = Ok false)
    /\ (evaluateRule this criteria = Ok true <->
        forall v, v ∈ RuleContext.authScopes (context this) <-> v ∈ values).
Proof.
  intros this values criteria.
  assert (Hrule : evaluateRule this criteria
                  = Ok (every (fun v => has (new_Set (RuleContext.authScopes (context this))) v) values
                        && every (fun v => has (new_Set values) v)
                                 (RuleContext.authScopes (context this)))) by reflexivity.
  rewrite Hrule. split.
  - destruct (_ && _); auto.
  - split.
    + intros [= [H1 H2]%andb_prop]. rewrite every_has_true in H1, H2.
      intros v. split; auto.
    + intros H. f_equal. apply andb_true_intro. rewrite !every_has_true.
      split; intros v Hv; apply H, Hv.
Qed.

(** X3. A criterion of type InstalledExtensions (ActiveExtensions) returns
    a boolean, which is true exactly when every value of the criterion is
    among the context's installed (active) extension ids; the context may
    hold more ids, and a criterion without values passes. *)
Theorem extension_criteria_test_superset :
  forall (this : RuleEngine) (values : list string),
    let installed :=
      {| CriteriaCondition.type := "InstalledExtensions"; CriteriaCondition.values := values |} in
    let active :=
      {| CriteriaCondition.type := "ActiveExtensions"; CriteriaCondition.values := values |} in
    (evaluateRule this installed = Ok true \/ evaluateRule this installed = Ok false)
    /\ (evaluateRule this installed = Ok true <->
        forall v, v ∈ values -> v ∈ RuleContext.installedExtensions (context this))
    /\ (evaluateRule this active = Ok true \/ evaluateRule this active = Ok false)
    /\ (evaluateRule this active = Ok true <->
        forall v, v ∈ values -> v ∈ RuleContext.activeExtensions (context this)).
Proof.
  intros this values installed active.
  assert (Hi : evaluateRule this installed
               = Ok (every (fun v => has (new_Set (RuleContext.installedExtensions (context this))) v)
                           values)) by reflexivity.
  assert (Ha : evaluateRule this active
               = Ok (every (fun v => has (new_Set (RuleContext.activeExtensions (context this))) v)
                           values)) by reflexivity.
  assert (Hbool : forall b : bool, @Ok bool b = Ok true \/ @Ok bool b = Ok false)
    by (intros []; auto).
  rewrite Hi, Ha, <- !every_has_true.
  split; [apply Hbool|]. split; [split; congruence|].
  split; [apply Hbool|]. split; congruence.
Qed.

End more_criteria.

(** ** More on the version matcher *)
Section more_isValidVersion.
Context {pkg : semver.Package}.

Lemma Array_some_app {A : Type} (f : A -> result bool) (xs ys : list A) :
  Array_some f (xs ++ ys) =
    match Array_some f xs with
    | Ok true => Ok true
    | Ok false => Array_some f ys
    | Throw e => Throw e
    end.
Proof.
  induction xs as [|x xs IH]; simpl; [reflexivity|].
  destruct (f x) as [[|]|e]; [reflexivity | exact IH | reflexivity].
Qed.

Lemma isValidVersion_lower_only version bound :
  bound <> "" ->
  isValidVersion version (Range (Some bound) None) = semver.gte version bound.
Proof.
  intros Hb. simpl. unfold truthy.
  destruct (String.eqb_spec bound "") as [E|_]; [contradiction|]. simpl.
  destruct (semver.gte version bound) as [[|]|e]; reflexivity.
Qed.

Lemma isValidVersion_upper_only version bound :
  bound <> "" ->
  isValidVersion version (Range None (Some bound)) = semver.lt version bound.
Proof.
  intros Hb. simpl. unfold truthy.
  destruct (String.eqb_spec bound "") as [E|_]; [contradiction|]. simpl.
  destruct (semver.lt version bound) as [[|]|e]; reflexivity.
Qed.

End more_isValidVersion.

Section more_isValidVersion_properties.

(** X4. For a bound that is not the empty string, the range with only that
    lower bound and the range with only that upper bound split the
    versions between them: whenever one of them returns a boolean the other
    returns the opposite one, and whenever one of them throws the other
    throws the same error. *)
Theorem half_ranges_are_complementary :
  forall (pkg : semver.Package) (version bound : string),
    bound <> "" ->
    (forall b, isValidVersion version (Range (Some bound) None) = Ok b <->
               isValidVersion version (Range None (Some bound)) = Ok (negb b))
    /\ (forall e, isValidVersion version (Range (Some bound) None) = Throw e <->
                  isValidVersion version (Range None (Some bound)) = Throw e).
Proof.
  intros pkg version bound Hb.
  rewrite isValidVersion_lower_only, isValidVersion_upper_only by exact Hb.
  unfold semver.gte, semver.lt.
  destruct (semver.compare version bound) as [[| |]|e']; simpl.
  - split; [intros []|intros e]; simpl; split; congruence.
  - split; [intros []|intros e]; simpl; split; congruence.
  - split; [intros []|intros e]; simpl; split; congruence.
  - split; [intros b|intros e]; split; congruence.
Qed.

(** [half_ranges_are_complementary] at version 1.50.0 and bound 1.9.0. *)
Lemma half_ranges_are_complementary_witness :
  "1.9.0" <> ""
  /\ @isValidVersion node_semver.package "1.50.0" (Range (Some "1.9.0") None) = Ok true
  /\ @isValidVersion node_semver.package "1.50.0" (Range None (Some "1.9.0")) = Ok false.
Proof.
  assert (Hb : "1.9.0" <> "") by discriminate.
  split; [exact Hb|].
  assert (Hlower : @isValidVersion node_semver.package "1.50.0" (Range (Some "1.9.0") None) = Ok true)
    by reflexivity.
  split; [exact Hlower|].
  exact (proj1 (proj1 (half_ranges_are_complementary node_semver.package "1.50.0" "1.9.0" Hb) true)
           Hlower).
Defined.

(** X5. When every sub-clause of an [or] returns a boolean for the version,
    so does the [or], and it returns true exactly when some sub-clause
    does, wherever that sub-clause stands in the list. *)
Theorem or_of_returning_clauses :
  forall (pkg : semver.Package) (version : string) (clauses : list ConditionalClause),
    Forall (fun clause => exists b, isValidVersion version clause = Ok b) clauses ->
    exists b,
      isValidVersion version (OR clauses) = Ok b
      /\ (b = true <-> exists clause, In clause clauses /\ isValidVersion version clause = Ok true).
Proof.
  intros pkg version clauses Hall. rewrite isValidVersion_or.
  apply Array_some_total, Hall.
Qed.

(** [or_of_returning_clauses] on an [or] whose second sub-clause matches. *)
Lemma or_of_returning_clauses_witness :
  exists b,
    @isValidVersion node_semver.package "1.2.3"
      (OR [ExactMatch ["1.0.0"]; Range (Some "1.2.0") (Some "1.3.0")]) = Ok b
    /\ (b = true <->
        exists clause,
          In clause [ExactMatch ["1.0.0"]; Range (Some "1.2.0") (Some "1.3.0")]
          /\ @isValidVersion node_semver.package "1.2.3" clause = Ok true).
Proof.
  apply (or_of_returning_clauses node_semver.package).
  repeat constructor; eexists; vm_compute; reflexivity.
Defined.

(** X6. An [or] of [or] clauses does what the single [or] of all their
    sub-clauses, taken in order, does: the same answer or the same throw. *)
Theorem nested_or_flattens :
  forall (pkg : semver.Package) (version : string) (groups : list (list ConditionalClause)),
    isValidVersion version (OR (map OR groups)) = isValidVersion version (OR (concat groups)).
Proof.
  intros pkg version groups. rewrite !isValidVersion_or.
  induction groups as [|group groups IH]; [reflexivity|].
  simpl map. simpl concat. rewrite Array_some_cons, Array_some_app, isValidVersion_or, IH.
  reflexivity.
Qed.

End more_isValidVersion_properties.

(** ** The order of the criteria *)
Section criteria_order.

Lemma recognizedCriteria_Permutation (cs cs' : list CriteriaCondition.t) :
  Permutation cs cs' ->
  forallb recognizedCriteria cs = true -> forallb recognizedCriteria cs' = true.
Proof.
  intros Hperm. rewrite !forallb_forall. intros H c Hc.
  apply H. eapply Permutation_in; [symmetry; exact Hperm | exact Hc].
Qed.

(** Over criteria of known types the loop has two outcomes. *)
Lemma for_of_criteria_recognized_cases this cs :
  forallb recognizedCriteria cs = true ->
  for_of_criteria this cs = Ok None \/ for_of_criteria this cs = Ok (Some false).
Proof.
  intros Hrec. destruct (for_of_criteria_recognized this cs Hrec) as [[value|] H].
  - right. rewrite H. f_equal. f_equal. eapply for_of_criteria_return, H.
  - left. exact H.
Qed.

Lemma for_of_criteria_Permutation this cs cs' :
  Permutation cs cs' ->
  forallb recognizedCriteria cs = true ->
  for_of_criteria this cs = for_of_criteria this cs'.
Proof.
  intros Hperm Hrec.
  pose proof (recognizedCriteria_Permutation cs cs' Hperm Hrec) as Hrec'.
  assert (Hend : for_of_criteria this cs = Ok None <-> for_of_criteria this cs' = Ok None).
  { rewrite !for_of_criteria_end. split; apply Permutation_Forall; [|symmetry]; exact Hperm. }
  destruct (for_of_criteria_recognized_cases this cs Hrec) as [H|H],
           (for_of_criteria_recognized_cases this cs' Hrec') as [H'|H']; try congruence.
  - apply Hend in H. congruence.
  - apply Hend in H'. congruence.
Qed.

(** X7. The order of the additional criteria does not matter when all of
    them are of known types: two gates that differ only in the order of
    their criteria get the same result from shouldDisplayNotification, be
    it a boolean or the throw of a version clause. *)
Theorem known_criteria_order_is_irrelevant :
  forall (pkg : semver.Package) (currentExt : string) (this : RuleEngine)
         (extensionId : string) (ideVersion extensionVersion : option ConditionalClause)
         (criteria criteria' : list CriteriaCondition.t),
    Permutation criteria criteria' ->
    forallb recognizedCriteria criteria = true ->
    shouldDisplayNotification currentExt this
      {| displayIf := {| DisplayIf.extensionId := extensionId;
                         DisplayIf.ideVersion := ideVersion;
                         DisplayIf.extensionVersion := extensionVersion;
                         DisplayIf.additionalCriteria := Some criteria |} |}
    = shouldDisplayNotification currentExt this
        {| displayIf := {| DisplayIf.extensionId := extensionId;
                           DisplayIf.ideVersion := ideVersion;
                           DisplayIf.extensionVersion := extensionVersion;
                           DisplayIf.additionalCriteria := Some criteria' |} |}.
Proof.
  intros pkg currentExt this extensionId ideVersion extensionVersion criteria criteria' Hperm Hrec.
  unfold shouldDisplayNotification. rewrite !evaluate_steps. simpl.
  rewrite (for_of_criteria_Permutation this criteria criteria' Hperm Hrec). reflexivity.
Qed.

(** [known_criteria_order_is_irrelevant] on two criteria, the second of
    which fails. *)
Lemma known_criteria_order_is_irrelevant_witness :
  let os := {| CriteriaCondition.type := "OS"; CriteriaCondition.values := ["LINUX"] |} in
  let state := {| CriteriaCondition.type := "AuthState"; CriteriaCondition.values := ["connected"] |} in
  @shouldDisplayNotification node_semver.package toolkit engine
    {| displayIf := {| DisplayIf.extensionId := toolkit;
                       DisplayIf.ideVersion := None;
                       DisplayIf.extensionVersion := None;
                       DisplayIf.additionalCriteria := Some [os; state] |} |}
  = @shouldDisplayNotification node_semver.package toolkit engine
      {| displayIf := {| DisplayIf.extensionId := toolkit;
                         DisplayIf.ideVersion := None;
                         DisplayIf.extensionVersion := None;
                         DisplayIf.additionalCriteria := Some [state; os] |} |}.
Proof.
  intros os state.
  apply (known_criteria_order_is_irrelevant node_semver.package toolkit engine toolkit None None
           [os; state] [state; os]).
  - apply perm_swap.
  - reflexivity.
Defined.

End criteria_order.

(** ** What [getRuleContext] builds *)
Section more_getRuleContext.

Lemma split_nonempty sep s : split sep s <> [].
Proof.
  destruct s as [|c s]; simpl; [discriminate|].
  destruct (Ascii.eqb c sep); [discriminate|].
  destruct (split sep s); discriminate.
Qed.

Lemma split_pieces sep s : Forall (fun piece => occurs sep piece = false) (split sep s).
Proof.
  induction s as [|c s IH]; simpl.
  - repeat constructor.
  - destruct (Ascii.eqb c sep) eqn:E.
    + constructor; [reflexivity | exact IH].
    + destruct (split sep s) as [|piece pieces].
      * repeat constructor. simpl. rewrite E. reflexivity.
      * apply Forall_cons_1 in IH as [Hp Hps]. constructor; [|exact Hps].
        simpl. rewrite E, Hp. reflexivity.
Qed.

(** [Array.prototype.join] after [split] gives the string back. *)
Lemma join_split sep s : String.concat (String sep "") (split sep s) = s.
Proof.
  induction s as [|c s IH]; simpl; [reflexivity|].
  destruct (Ascii.eqb_spec c sep) as [->|Hc].
  - pose proof (split_nonempty sep s) as Hne.
    destruct (split sep s) as [|piece pieces]; [contradiction|].
    simpl in *. rewrite IH. reflexivity.
  - destruct (split sep s) as [|piece pieces] eqn:E.
    + exfalso. eapply split_nonempty, E.
    + simpl in *. destruct pieces; simpl in *; rewrite <- IH; reflexivity.
Qed.

Lemma getRuleContext_active_installed host context authState id :
  id ∈ RuleContext.activeExtensions (getRuleContext host context authState) ->
  id ∈ RuleContext.installedExtensions (getRuleContext host context authState).
Proof.
  simpl. rewrite !list_elem_of_In, !in_map_iff.
  intros (e & Hid & Hin). apply filter_In in Hin as [Hin _]. eauto.
Qed.

End more_getRuleContext.

Section getRuleContext_properties.

(** X8. In every RuleContext that getRuleContext builds, authStates has
    exactly one entry, authRegions has at most one entry and never the
    empty string, authTypes is never empty (an empty authEnabledConnections
    gives the list with the empty string), and authScopes is empty exactly
    when the state's authScopes is absent or the empty string. *)
Theorem getRuleContext_list_shapes :
  forall (host : vscode.Host) (context : vscode.ExtensionContext) (authState : AuthState),
    let ctx := getRuleContext host context authState in
    length (RuleContext.authStates ctx) = 1
    /\ length (RuleContext.authRegions ctx) <= 1
    /\ ("" ∉ RuleContext.authRegions ctx)
    /\ RuleContext.authTypes ctx <> []
    /\ (authEnabledConnections authState = "" -> RuleContext.authTypes ctx = [""])
    /\ (RuleContext.authScopes ctx = [] <->
        authScopes authState = None \/ authScopes authState = Some "").
Proof.
  intros host context authState ctx. unfold ctx. simpl.
  split; [reflexivity|]. split; [|split; [|split; [|split]]].
  - destruct (awsRegion authState) as [region|]; simpl; [|lia].
    destruct (negb _); simpl; lia.
  - destruct (awsRegion authState) as [region|]; simpl; [|apply not_elem_of_nil].
    destruct (String.eqb_spec region "") as [->|Hr]; simpl; [apply not_elem_of_nil|].
    intros [E|H]%elem_of_cons; [congruence | apply elem_of_nil in H; exact H].
  - apply split_nonempty.
  - intros ->. reflexivity.
  - destruct (authScopes authState) as [scopes|]; simpl; [|tauto].
    destruct (String.eqb_spec scopes "") as [->|Hs]; simpl; [tauto|].
    split.
    + intros H. exfalso. eapply split_nonempty, H.
    + intros [[=]|[= ->]]. contradiction.
Qed.

(** [getRuleContext_list_shapes] on a state without connections. *)
Lemma getRuleContext_list_shapes_witness :
  authEnabledConnections sampleAuthState = ""
  /\ RuleContext.authTypes (getRuleContext sampleHost sampleExtensionContext sampleAuthState) = [""].
Proof.
  split; [reflexivity|].
  exact (proj1 (proj2 (proj2 (proj2 (proj2
           (getRuleContext_list_shapes sampleHost sampleExtensionContext sampleAuthState)))))
           eq_refl).
Defined.

(** X9. getRuleContext loses nothing of the two comma-separated fields:
    joining authTypes with commas gives authEnabledConnections back, joining
    authScopes gives the state's authScopes back (the empty string when it
    is absent), and no entry of either list contains a comma. *)
Theorem getRuleContext_comma_lists_round_trip :
  forall (host : vscode.Host) (context : vscode.ExtensionContext) (authState : AuthState),
    let ctx := getRuleContext host context authState in
    String.concat "," (RuleContext.authTypes ctx) = authEnabledConnections authState
    /\ String.concat "," (RuleContext.authScopes ctx) = default "" (authScopes authState)
    /\ Forall (fun entry => occurs "," entry = false) (RuleContext.authTypes ctx)
    /\ Forall (fun entry => occurs "," entry = false) (RuleContext.authScopes ctx).
Proof.
  intros host context authState ctx. unfold ctx. simpl.
  split; [apply join_split|]. split; [|split; [apply split_pieces|]].
  - destruct (authScopes authState) as [scopes|]; simpl; [|reflexivity].
    destruct (String.eqb_spec scopes "") as [->|Hs]; simpl; [reflexivity | apply join_split].
  - destruct (authScopes authState) as [scopes|]; simpl; [|constructor].
    destruct (negb _); [apply split_pieces | constructor].
Qed.

(** X10. On a context built by getRuleContext, a criterion of type
    ActiveExtensions that passes still passes when its type is changed to
    InstalledExtensions: every active extension is installed. *)
Theorem active_criteria_imply_installed_criteria :
  forall (host : vscode.Host) (context : vscode.ExtensionContext) (authState : AuthState)
         (values : list string),
    let this := new_RuleEngine (getRuleContext host context authState) in
    evaluateRule this {| CriteriaCondition.type := "ActiveExtensions";
                         CriteriaCondition.values := values |} = Ok true ->
    evaluateRule this {| CriteriaCondition.type := "InstalledExtensions";
                         CriteriaCondition.values := values |} = Ok true.
Proof.
  intros host context authState values this.
  change (Ok (every (fun v => has (new_Set (RuleContext.activeExtensions
                                              (getRuleContext host context authState))) v) values)
          = Ok true ->
          Ok (every (fun v => has (new_Set (RuleContext.installedExtensions
                                              (getRuleContext host context authState))) v) values)
          = Ok true).
  intros [= H]. f_equal. rewrite every_has_true in *.
  intros v Hv. apply getRuleContext_active_installed, H, Hv.
Qed.

(** [active_criteria_imply_installed_criteria] on a host with one active
    and one inactive extension. *)
Lemma active_criteria_imply_installed_criteria_witness :
  let this := new_RuleEngine (getRuleContext sampleHost sampleExtensionContext sampleAuthState) in
  evaluateRule this {| CriteriaCondition.type := "ActiveExtensions";
                       CriteriaCondition.values := ["ms-python.python"] |} = Ok true
  /\ evaluateRule this {| CriteriaCondition.type := "InstalledExtensions";
                          CriteriaCondition.values := ["ms-python.python"] |} = Ok true.
Proof.
  intros this.
  assert (Hactive : evaluateRule this {| CriteriaCondition.type := "ActiveExtensions";
                                         CriteriaCondition.values := ["ms-python.python"] |}
                    = Ok true) by (vm_compute; reflexivity).
  split; [exact Hactive|].
  exact (active_criteria_imply_installed_criteria sampleHost sampleExtensionContext sampleAuthState
           ["ms-python.python"] Hactive).
Defined.

(** X11. On a context built by getRuleContext, a criterion of type
    AuthState is true exactly when the state's authStatus is one of its
    values, and a criterion of type AuthRegion is true exactly when the
    state has a non-empty awsRegion that is one of its values; without a
    region, or with the empty string as region, no AuthRegion criterion
    passes. *)
Theorem auth_criteria_on_built_context :
  forall (host : vscode.Host) (context : vscode.ExtensionContext) (authState : AuthState)
         (values : list string),
    let this := new_RuleEngine (getRuleContext host context authState) in
    (evaluateRule this {| CriteriaCondition.type := "AuthState"; CriteriaCondition.values := values |}
     = Ok true <-> authStatus authState ∈ values)
    /\ (evaluateRule this {| CriteriaCondition.type := "AuthRegion"; CriteriaCondition.values := values |}
        = Ok true <->
        exists region, awsRegion authState = Some region /\ region <> "" /\ region ∈ values).
Proof.
  intros host context authState values this. unfold this.
  rewrite evaluateRule_AuthState, evaluateRule_AuthRegion.
  assert (Hok : forall b : bool, @Ok bool b = Ok true <-> b = true)
    by (intros b; split; congruence).
  rewrite !Hok, !hasAnyOfExpected_true. simpl. split.
  - split.
    + intros (v & Hv%list_elem_of_singleton & Hin). congruence.
    + intros Hin. exists (authStatus authState). split; [apply list_elem_of_singleton; reflexivity | exact Hin].
  - destruct (awsRegion authState) as [region|]; simpl.
    + destruct (String.eqb_spec region "") as [->|Hr]; simpl.
      * split.
        -- intros (v & Hv & _). apply elem_of_nil in Hv. contradiction.
        -- intros (r & [= <-] & Hne & _). contradiction.
      * split.
        -- intros (v & Hv%list_elem_of_singleton & Hin). exists region. subst v. auto.
        -- intros (r & [= <-] & _ & Hin). exists region.
           split; [apply list_elem_of_singleton; reflexivity | exact Hin].
    + split.
      * intros (v & Hv & _). apply elem_of_nil in Hv. contradiction.
      * intros (r & [=] & _).
Qed.

End getRuleContext_properties.

(** * Properties of the text utilities *)

(** ** Strings *)
Section string_facts.
#[local] Arguments String.append !_ _ / : simpl nomatch.

Lemma length_append (s t : string) :
  String.length (s +:+ t) = String.length s + String.length t.
Proof. induction s as [|c s IH]; simpl; [reflexivity | rewrite IH; reflexivity]. Qed.

Lemma append_empty_r (s : string) : s +:+ "" = s.
Proof. induction s as [|c s IH]; simpl; [reflexivity | rewrite IH; reflexivity]. Qed.

Lemma length_zero_empty (s : string) : String.length s = 0 -> s = "".
Proof. destruct s; [reflexivity | discriminate]. Qed.

Lemma takeUnits_dropUnits (n : nat) (s : string) : takeUnits n s +:+ dropUnits n s = s.
Proof.
  revert s. induction n as [|n IH]; intros [|c s]; simpl; try reflexivity.
  rewrite IH. reflexivity.
Qed.

Lemma length_takeUnits (n : nat) (s : string) :
  n <= String.length s -> String.length (takeUnits n s) = n.
Proof.
  revert s. induction n as [|n IH]; intros [|c s]; simpl; intros H; try reflexivity; try lia.
  rewrite IH; [reflexivity | lia].
Qed.

Lemma length_dropUnits (n : nat) (s : string) :
  String.length (dropUnits n s) = String.length s - n.
Proof.
  revert s. induction n as [|n IH]; intros [|c s]; simpl; try reflexivity. apply IH.
Qed.

Lemma takeUnits_all (n : nat) (s : string) : String.length s <= n -> takeUnits n s = s.
Proof.
  revert s. induction n as [|n IH]; intros [|c s]; simpl; intros H; try reflexivity; try lia.
  rewrite IH; [reflexivity | lia].
Qed.

Lemma takeUnits_append (a b : string) : takeUnits (String.length a) (a +:+ b) = a.
Proof. induction a as [|c a IH]; simpl; [destruct b; reflexivity | rewrite IH; reflexivity]. Qed.

Lemma dropUnits_append (a b : string) : dropUnits (String.length a) (a +:+ b) = b.
Proof. induction a as [|c a IH]; simpl; [destruct b; reflexivity | exact IH]. Qed.

Lemma dropUnits_zero (s : string) : dropUnits 0 s = s.
Proof. destruct s; reflexivity. Qed.

Lemma occurs_append (c : ascii) (a b : string) :
  occurs c (a +:+ b) = occurs c a || occurs c b.
Proof.
  induction a as [|c' a IH]; simpl; [reflexivity|].
  rewrite IH. apply orb_assoc.
Qed.

End string_facts.

(** ** truncate *)
Section truncate_facts.
Variable ellipsis : string.

(** The first [n] units. *)
Lemma substring_prefix (s : string) (n : Z) :
  (0 <= n <= Z.of_nat (String.length s))%Z ->
  substring s 0 n = takeUnits (Z.to_nat n) s.
Proof.
  intros Hn. unfold substring, clampIndex.
  replace (Z.to_nat (Z.min (Z.max 0 0) (Z.of_nat (String.length s)))) with 0 by lia.
  replace (Z.to_nat (Z.min (Z.max n 0) (Z.of_nat (String.length s)))) with (Z.to_nat n) by lia.
  rewrite Nat.max_0_l, Nat.min_0_l, Nat.sub_0_r, dropUnits_zero. reflexivity.
Qed.

(** The last [k] units. *)
Lemma substring_suffix (s : string) (k : Z) :
  (0 <= k <= Z.of_nat (String.length s))%Z ->
  substring s (Z.of_nat (String.length s) - k) (Z.of_nat (String.length s))
  = dropUnits (String.length s - Z.to_nat k) s.
Proof.
  intros Hk. unfold substring, clampIndex.
  replace (Z.to_nat (Z.min (Z.max (Z.of_nat (String.length s) - k) 0) (Z.of_nat (String.length s))))
    with (String.length s - Z.to_nat k) by lia.
  replace (Z.to_nat (Z.min (Z.max (Z.of_nat (String.length s)) 0) (Z.of_nat (String.length s))))
    with (String.length s) by lia.
  rewrite Nat.max_r, Nat.min_l by lia.
  apply takeUnits_all. rewrite length_dropUnits. lia.
Qed.

Lemma truncate_short s n suffix :
  (Z.of_nat (String.length s) <= Z.abs n)%Z -> truncate ellipsis s n suffix = s.
Proof. intros H. unfold truncate. rewrite (proj2 (Z.leb_le _ _) H). reflexivity. Qed.

Lemma truncate_at_end s n suffix :
  (0 <= n < Z.of_nat (String.length s))%Z ->
  truncate ellipsis s n suffix = takeUnits (Z.to_nat n) s +:+ default ellipsis suffix.
Proof.
  intros H. unfold truncate.
  rewrite (proj2 (Z.leb_gt _ _)) by lia. rewrite (proj2 (Z.ltb_ge _ _)) by lia.
  rewrite substring_prefix by lia. reflexivity.
Qed.

Lemma truncate_at_start s n suffix :
  (n < 0)%Z -> (- n < Z.of_nat (String.length s))%Z ->
  truncate ellipsis s n suffix
  = default ellipsis suffix +:+ dropUnits (String.length s - Z.to_nat (- n)) s.
Proof.
  intros Hneg H. unfold truncate.
  rewrite (proj2 (Z.leb_gt _ _)) by lia. rewrite (proj2 (Z.ltb_lt _ _)) by lia.
  rewrite Z.abs_neq by lia. rewrite substring_suffix by lia. reflexivity.
Qed.

Lemma truncate_idempotent s n suffix :
  truncate ellipsis (truncate ellipsis s n suffix) n suffix = truncate ellipsis s n suffix.
Proof.
  destruct (Z.le_gt_cases (Z.of_nat (String.length s)) (Z.abs n)) as [Hshort|Hlong].
  { rewrite (truncate_short s) by exact Hshort. apply truncate_short, Hshort. }
  destruct (String.length (default ellipsis suffix)) as [|m] eqn:Hsfx.
  - (* an empty suffix: the result is short *)
    apply truncate_short.
    destruct (Z.lt_ge_cases n 0) as [Hneg|Hpos].
    + rewrite truncate_at_start, length_append, Hsfx, length_dropUnits by lia. lia.
    + rewrite truncate_at_end, length_append, Hsfx, length_takeUnits by lia. lia.
  - destruct (Z.lt_ge_cases n 0) as [Hneg|Hpos].
    + rewrite (truncate_at_start s) by lia.
      set (kept := dropUnits (String.length s - Z.to_nat (- n)) s).
      assert (Hkept : String.length kept = Z.to_nat (- n)).
      { unfold kept. rewrite length_dropUnits. lia. }
      rewrite truncate_at_start by (try rewrite length_append; lia).
      rewrite length_append, Hkept.
      replace (String.length (default ellipsis suffix) + Z.to_nat (- n) - Z.to_nat (- n))
        with (String.length (default ellipsis suffix)) by lia.
      rewrite dropUnits_append. reflexivity.
    + rewrite (truncate_at_end s) by lia.
      set (kept := takeUnits (Z.to_nat n) s).
      assert (Hkept : String.length kept = Z.to_nat n).
      { unfold kept. apply length_takeUnits. lia. }
      rewrite truncate_at_end by (rewrite length_append; lia).
      rewrite <- Hkept, takeUnits_append. reflexivity.
Qed.

End truncate_facts.

Section truncate_properties.

(** X12. truncate returns a string of at most |n| units as it is.  Of a
    longer one it keeps exactly |n| units, the first n when n is not
    negative and the last |n| when it is, and puts the suffix after them
    (before them when n is negative), so the result has |n| units plus
    those of the suffix and may be longer than the string it was given. *)
Theorem truncate_keeps_one_end :
  forall (ellipsis s : string) (n : Z) (suffix : option string),
    ((Z.of_nat (String.length s) <= Z.abs n)%Z -> truncate ellipsis s n suffix = s)
    /\ ((Z.abs n < Z.of_nat (String.length s))%Z ->
        exists kept dropped,
          String.length kept = Z.to_nat (Z.abs n)
          /\ ((0 <= n)%Z /\ s = kept +:+ dropped
                /\ truncate ellipsis s n suffix = kept +:+ default ellipsis suffix
              \/ (n < 0)%Z /\ s = dropped +:+ kept
                 /\ truncate ellipsis s n suffix = default ellipsis suffix +:+ kept)
          /\ String.length (truncate ellipsis s n suffix)
             = Z.to_nat (Z.abs n) + String.length (default ellipsis suffix)).
Proof.
  intros ellipsis s n suffix. split; [apply truncate_short|].
  intros Hlong. destruct (Z.lt_ge_cases n 0) as [Hneg|Hpos].
  - exists (dropUnits (String.length s - Z.to_nat (- n)) s),
           (takeUnits (String.length s - Z.to_nat (- n)) s).
    assert (Hkept : String.length (dropUnits (String.length s - Z.to_nat (- n)) s)
                    = Z.to_nat (Z.abs n)).
    { rewrite length_dropUnits. lia. }
    split; [exact Hkept|]. rewrite truncate_at_start by lia. split.
    + right. split; [exact Hneg|]. split; [|reflexivity].
      symmetry. apply takeUnits_dropUnits.
    + rewrite length_append, Hkept. lia.
  - exists (takeUnits (Z.to_nat n) s), (dropUnits (Z.to_nat n) s).
    assert (Hkept : String.length (takeUnits (Z.to_nat n) s) = Z.to_nat (Z.abs n)).
    { rewrite length_takeUnits by lia. lia. }
    split; [exact Hkept|]. rewrite truncate_at_end by lia. split.
    + left. split; [lia|]. split; [|reflexivity].
      symmetry. apply takeUnits_dropUnits.
    + rewrite length_append, Hkept. lia.
Qed.

(** [truncate_keeps_one_end] on an eight-unit string cut to its last three
    units. *)
Lemma truncate_keeps_one_end_witness :
  (Z.abs (-3) < Z.of_nat (String.length "abcdefgh"))%Z
  /\ truncate "..." "abcdefgh" (-3) None = "...fgh"
  /\ String.length (truncate "..." "abcdefgh" (-3) None) = 3 + 3.
Proof.
  assert (Hlong : (Z.abs (-3) < Z.of_nat (String.length "abcdefgh"))%Z) by (vm_compute; reflexivity).
  split; [exact Hlong|]. split; [reflexivity|].
  destruct (proj2 (truncate_keeps_one_end "..." "abcdefgh" (-3) None) Hlong)
    as (kept & dropped & _ & _ & Hlength).
  exact Hlength.
Defined.

(** X13. truncate is idempotent: truncating its result again, with the same
    n and the same suffix, changes nothing, although that result may be
    longer than |n|. *)
Theorem truncate_twice_is_truncate_once :
  forall (ellipsis s : string) (n : Z) (suffix : option string),
    truncate ellipsis (truncate ellipsis s n suffix) n suffix = truncate ellipsis s n suffix.
Proof. intros ellipsis s n suffix. apply truncate_idempotent. Qed.

End truncate_properties.

(** ** truncateProps *)
Section truncateProps_facts.
Variable ellipsis : string.
Variable Other : Type.
Variable len : Z.
Variable suffix : option string.

(** One turn of either loop of [truncateProps]. *)
Let assign (r : gmap string (Value Other)) (propName : string) : gmap string (Value Other) :=
  match r !! propName with
  | Some (VString val) => <[propName := VString (truncate ellipsis val len suffix)]> r
  | _ => r
  end.

Lemma truncateValue_idempotent (v : Value Other) :
  truncateValue ellipsis Other len suffix (truncateValue ellipsis Other len suffix v)
  = truncateValue ellipsis Other len suffix v.
Proof. destruct v as [s|o]; simpl; [rewrite truncate_idempotent|]; reflexivity. Qed.

Lemma assign_lookup r propName k :
  assign r propName !! k
  = if decide (propName = k) then truncateValue ellipsis Other len suffix <$> r !! k else r !! k.
Proof.
  unfold assign. destruct (decide (propName = k)) as [->|Hne].
  - destruct (r !! k) as [[val|o]|] eqn:E; simpl.
    + apply lookup_insert_eq.
    + exact E.
    + exact E.
  - destruct (r !! propName) as [[val|o]|]; try reflexivity.
    apply lookup_insert_ne, Hne.
Qed.

Lemma assign_all_lookup propNames r k :
  fold_left assign propNames r !! k
  = if decide (k ∈ propNames) then truncateValue ellipsis Other len suffix <$> r !! k else r !! k.
Proof.
  revert r. induction propNames as [|propName propNames IH]; intros r; simpl.
  - destruct (decide (k ∈ [])) as [H|_]; [apply elem_of_nil in H; contradiction | reflexivity].
  - rewrite IH, assign_lookup.
    destruct (decide (k ∈ propNames)) as [Hin|Hnin], (decide (propName = k)) as [->|Hne],
             (decide (k ∈ _ :: propNames)) as [Hin'|Hnin']; try reflexivity.
    + destruct (r !! k) as [v|]; simpl; [rewrite truncateValue_idempotent|]; reflexivity.
    + exfalso. apply Hnin'. apply elem_of_cons. auto.
    + exfalso. apply Hnin'. apply elem_of_cons. auto.
    + exfalso. apply Hnin'. apply elem_of_cons. auto.
    + apply elem_of_cons in Hin' as [E|Hin']; [congruence | contradiction].
Qed.

Lemma getOwnPropertyNames_spec (obj : gmap string (Value Other)) k :
  k ∈ getOwnPropertyNames Other obj <-> is_Some (obj !! k).
Proof.
  unfold getOwnPropertyNames. rewrite list_elem_of_fmap. split.
  - intros ([k' v] & -> & Hin). apply elem_of_map_to_list in Hin. simpl. eauto.
  - intros [v Hv]. exists (k, v). split; [reflexivity | apply elem_of_map_to_list, Hv].
Qed.

Lemma truncateProps_lookup (obj : gmap string (Value Other)) propNames :
  (0 < len)%Z ->
  exists r,
    truncateProps ellipsis Other obj len propNames suffix = Ok r
    /\ forall k,
        r !! k =
          match propNames with
          | Some names =>
              if decide (k ∈ names)
              then truncateValue ellipsis Other len suffix <$> obj !! k
              else obj !! k
          | None => truncateValue ellipsis Other len suffix <$> obj !! k
          end.
Proof.
  intros Hlen. unfold truncateProps. rewrite (proj2 (Z.leb_gt _ _) Hlen).
  destruct propNames as [names|]; eexists; (split; [reflexivity|]); intros k.
  - apply assign_all_lookup.
  - fold assign. rewrite assign_all_lookup.
    destruct (decide (k ∈ _)) as [_|Hnin]; [reflexivity|].
    rewrite getOwnPropertyNames_spec in Hnin.
    destruct (obj !! k) as [v|] eqn:E; [exfalso; apply Hnin; eauto | reflexivity].
Qed.

End truncateProps_facts.

Section truncateProps_properties.



End truncateProps_properties.

(** ** encodeHTML and toBase64URL *)
Section replace_facts.
#[local] Arguments String.append !_ _ / : simpl nomatch.

Lemma replaceEach_removes c by_ s :
  occurs c by_ = false -> occurs c (replaceEach c by_ s) = false.
Proof.
  intros Hby. induction s as [|c' s IH]; simpl; [reflexivity|].
  destruct (Ascii.eqb c' c) eqn:E; simpl.
  - rewrite occurs_append, Hby, IH. reflexivity.
  - rewrite E, IH. reflexivity.
Qed.

Lemma replaceEach_keeps_absent d c by_ s :
  occurs d by_ = false -> occurs d s = false -> occurs d (replaceEach c by_ s) = false.
Proof.
  intros Hby. induction s as [|c' s IH]; simpl; [reflexivity|].
  intros [Hc Hs]%orb_false_elim.
  destruct (Ascii.eqb c' c); simpl.
  - rewrite occurs_append, Hby, IH by exact Hs. reflexivity.
  - rewrite Hc, IH by exact Hs. reflexivity.
Qed.

Lemma replaceEach_absent c by_ s : occurs c s = false -> replaceEach c by_ s = s.
Proof.
  induction s as [|c' s IH]; simpl; [reflexivity|].
  intros [Hc Hs]%orb_false_elim. rewrite Hc, IH by exact Hs. reflexivity.
Qed.

Lemma length_replaceEach_unit c c' s :
  String.length (replaceEach c (String c' "") s) = String.length s.
Proof.
  induction s as [|x s IH]; simpl; [reflexivity|].
  destruct (Ascii.eqb x c); simpl; rewrite IH; reflexivity.
Qed.

Lemma dropTrailing_keeps_absent d c s :
  occurs d s = false -> occurs d (dropTrailing c s) = false.
Proof.
  induction s as [|c' s IH]; simpl; [reflexivity|].
  intros [Hc Hs]%orb_false_elim.
  destruct (Ascii.eqb c' c && String.eqb (dropTrailing c s) ""); simpl; [reflexivity|].
  rewrite Hc, IH by exact Hs. reflexivity.
Qed.

Lemma dropTrailing_last c s : lastUnit (dropTrailing c s) <> Some c.
Proof.
  induction s as [|c' s IH]; simpl; [discriminate|].
  destruct (Ascii.eqb_spec c' c) as [->|Hc]; simpl.
  - destruct (String.eqb_spec (dropTrailing c s) "") as [E|E]; simpl; [discriminate|].
    destruct (dropTrailing c s); [contradiction | exact IH].
  - destruct (dropTrailing c s); [congruence | exact IH].
Qed.

Lemma dropTrailing_absent c s : lastUnit s <> Some c -> dropTrailing c s = s.
Proof.
  induction s as [|c' s IH]; simpl; [reflexivity|].
  destruct s as [|c'' s].
  - simpl. intros Hc. destruct (Ascii.eqb_spec c' c) as [->|_]; [contradiction | reflexivity].
  - intros Hlast. rewrite (IH Hlast). simpl. rewrite andb_false_r. reflexivity.
Qed.

Lemma length_dropTrailing c s : String.length (dropTrailing c s) <= String.length s.
Proof.
  induction s as [|c' s IH]; simpl; [lia|].
  destruct (Ascii.eqb c' c && String.eqb (dropTrailing c s) ""); simpl; lia.
Qed.

End replace_facts.

Section encoding_properties.

(** X15. The result of encodeHTML contains neither "<" nor ">"; a string
    without these two characters is returned as it is, an ampersand
    included, so encoding a second time changes nothing. *)
Theorem encodeHTML_leaves_no_angle_bracket :
  forall str : string,
    occurs "<" (encodeHTML str) = false
    /\ occurs ">" (encodeHTML str) = false
    /\ (occurs "<" str = false -> occurs ">" str = false -> encodeHTML str = str)
    /\ encodeHTML (encodeHTML str) = encodeHTML str.
Proof.
  assert (Hfixed : forall str, occurs "<" str = false -> occurs ">" str = false ->
                               encodeHTML str = str).
  { intros str Hlt Hgt. unfold encodeHTML.
    rewrite (replaceEach_absent "<") by exact Hlt. apply replaceEach_absent, Hgt. }
  assert (Hlt : forall str, occurs "<" (encodeHTML str) = false).
  { intros str. unfold encodeHTML. apply replaceEach_keeps_absent; [reflexivity|].
    apply replaceEach_removes. reflexivity. }
  assert (Hgt : forall str, occurs ">" (encodeHTML str) = false).
  { intros str. unfold encodeHTML. apply replaceEach_removes. reflexivity. }
  intros str. split; [apply Hlt|]. split; [apply Hgt|]. split; [apply Hfixed|].
  apply Hfixed; [apply Hlt | apply Hgt].
Qed.

(** [encodeHTML_leaves_no_angle_bracket] on a text with an ampersand. *)
Lemma encodeHTML_leaves_no_angle_bracket_witness :
  occurs "<" "a & b" = false /\ occurs ">" "a & b" = false /\ encodeHTML "a & b" = "a & b".
Proof.
  assert (Hlt : occurs "<" "a & b" = false) by reflexivity.
  assert (Hgt : occurs ">" "a & b" = false) by reflexivity.
  split; [exact Hlt|]. split; [exact Hgt|].
  exact (proj1 (proj2 (proj2 (encodeHTML_leaves_no_angle_bracket "a & b"))) Hlt Hgt).
Defined.

(** X16. The result of toBase64URL contains neither "+" nor "/" and does
    not end with "="; it is never longer than its argument, and converting
    it again changes nothing. *)
Theorem toBase64URL_result_is_url_safe :
  forall base64 : string,
    occurs "+" (toBase64URL base64) = false
    /\ occurs "/" (toBase64URL base64) = false
    /\ lastUnit (toBase64URL base64) <> Some "="%char
    /\ String.length (toBase64URL base64) <= String.length base64
    /\ toBase64URL (toBase64URL base64) = toBase64URL base64.
Proof.
  intros base64.
  assert (Hplus : occurs "+" (toBase64URL base64) = false).
  { unfold toBase64URL. apply dropTrailing_keeps_absent.
    apply replaceEach_keeps_absent; [reflexivity|]. apply replaceEach_removes. reflexivity. }
  assert (Hslash : occurs "/" (toBase64URL base64) = false).
  { unfold toBase64URL. apply dropTrailing_keeps_absent. apply replaceEach_removes. reflexivity. }
  assert (Hlast : lastUnit (toBase64URL base64) <> Some "="%char) by apply dropTrailing_last.
  split; [exact Hplus|]. split; [exact Hslash|]. split; [exact Hlast|]. split.
  - unfold toBase64URL.
    etransitivity; [apply length_dropTrailing|].
    rewrite !length_replaceEach_unit. reflexivity.
  - unfold toBase64URL at 1.
    rewrite (replaceEach_absent "+") by exact Hplus.
    rewrite (replaceEach_absent "/") by exact Hslash.
    apply dropTrailing_absent, Hlast.
Qed.

End encoding_properties.

(** ** convertToTimeString *)
Section convertToTimeString_properties.

(** X17. convertToTimeString shows the time of day only: a duration and the
    same duration one day (86,400,000 ms) longer give the same text, the
    whole days being dropped. *)
Theorem convertToTimeString_drops_whole_days :
  forall durationInMs : Z,
    (Z.abs durationInMs <= 8640000000000000)%Z ->
    (Z.abs (durationInMs + 86400000) <= 8640000000000000)%Z ->
    convertToTimeString (durationInMs + 86400000) = convertToTimeString durationInMs.
Proof.
  intros t Ht Ht'. unfold convertToTimeString, new_Date.
  rewrite (proj2 (Z.leb_le _ _) Ht), (proj2 (Z.leb_le _ _) Ht').
  unfold getUTCHours, getUTCMinutes, getUTCSeconds. simpl.
  replace ((t + 86400000) / 3600000 mod 24)%Z with (t / 3600000 mod 24)%Z.
  2: { replace 86400000%Z with (24 * 3600000)%Z by reflexivity.
       rewrite Z.div_add by lia.
       replace (t / 3600000 + 24)%Z with (t / 3600000 + 1 * 24)%Z by lia.
       rewrite Z_mod_plus_full. reflexivity. }
  replace ((t + 86400000) / 60000 mod 60)%Z with (t / 60000 mod 60)%Z.
  2: { replace 86400000%Z with (1440 * 60000)%Z by reflexivity.
       rewrite Z.div_add by lia. replace 1440%Z with (24 * 60)%Z by reflexivity.
       rewrite Z_mod_plus_full. reflexivity. }
  replace ((t + 86400000) / 1000 mod 60)%Z with (t / 1000 mod 60)%Z.
  2: { replace 86400000%Z with (86400 * 1000)%Z by reflexivity.
       rewrite Z.div_add by lia. replace 86400%Z with (1440 * 60)%Z by reflexivity.
       rewrite Z_mod_plus_full. reflexivity. }
  reflexivity.
Qed.

(** [convertToTimeString_drops_whole_days] on one hour and a quarter. *)
Lemma convertToTimeString_drops_whole_days_witness :
  (Z.abs 4500000 <= 8640000000000000)%Z
  /\ (Z.abs (4500000 + 86400000) <= 8640000000000000)%Z
  /\ convertToTimeString (4500000 + 86400000) = "1 hr 15 min 0 sec".
Proof.
  assert (H1 : (Z.abs 4500000 <= 8640000000000000)%Z) by (vm_compute; discriminate).
  assert (H2 : (Z.abs (4500000 + 86400000) <= 8640000000000000)%Z) by (vm_compute; discriminate).
  split; [exact H1|]. split; [exact H2|].
  exact (convertToTimeString_drops_whole_days 4500000 H1 H2).
Defined.

End convertToTimeString_properties.

(** * The gate stops at its first failing step *)
Section gate_short_circuit.

Lemma for_of_criteria_first_failure this before criteria after :
  Forall (fun c => evaluateRule this c = Ok true) before ->
  evaluateRule this criteria = Ok false ->
  for_of_criteria this (before ++ criteria :: after) = Ok (Some false).
Proof.
  intros Hbefore Hfail. induction Hbefore as [|c before Hc _ IH]; simpl.
  - rewrite Hfail. reflexivity.
  - rewrite Hc. exact IH.
Qed.

(** X18. When the extension id matches, shouldDisplayNotification returns
    false at the first step that fails and evaluates nothing after it: an
    ideVersion clause that does not match decides whatever extensionVersion
    and the criteria hold, an extensionVersion clause that does not match
    (ideVersion absent or matched) decides whatever the criteria hold, and
    the first criterion that fails (both versions and the criteria before
    it having passed) decides whatever follows it, a criterion of an
    unknown type included. *)
Theorem gate_stops_at_first_failure :
  forall (pkg : semver.Package) (currentExt : string) (this : RuleEngine)
         (payload : ToolkitNotification),
    DisplayIf.extensionId (displayIf payload) = currentExt ->
    ((exists clause,
        DisplayIf.ideVersion (displayIf payload) = Some clause
        /\ isValidVersion (RuleContext.ideVersion (context this)) clause = Ok false) ->
     shouldDisplayNotification currentExt this payload = Ok false)
    /\ (absentOrMatches (RuleContext.ideVersion (context this))
                        (DisplayIf.ideVersion (displayIf payload)) ->
        (exists clause,
           DisplayIf.extensionVersion (displayIf payload) = Some clause
           /\ isValidVersion (RuleContext.extensionVersion (context this)) clause = Ok false) ->
        shouldDisplayNotification currentExt this payload = Ok false)
    /\ (absentOrMatches (RuleContext.ideVersion (context this))
                        (DisplayIf.ideVersion (displayIf payload)) ->
        absentOrMatches (RuleContext.extensionVersion (context this))
                        (DisplayIf.extensionVersion (displayIf payload)) ->
        forall before criteria after,
          DisplayIf.additionalCriteria (displayIf payload) = Some (before ++ criteria :: after) ->
          Forall (fun c => evaluateRule this c = Ok true) before ->
          evaluateRule this criteria = Ok false ->
          shouldDisplayNotification currentExt this payload = Ok false).
Proof.
  intros pkg currentExt this payload Hid. unfold shouldDisplayNotification.
  rewrite evaluate_steps, Hid, String.eqb_refl. simpl. split; [|split].
  - intros (clause & -> & Hfalse). simpl. rewrite Hfalse. reflexivity.
  - intros Hide%versionGate_true (clause & -> & Hfalse). rewrite Hide. simpl.
    rewrite Hfalse. reflexivity.
  - intros Hide%versionGate_true Hext%versionGate_true before criteria after -> Hbefore Hfail.
    rewrite Hide. simpl. rewrite Hext. simpl.
    rewrite (for_of_criteria_first_failure this before criteria after Hbefore Hfail).
    reflexivity.
Qed.

(** [gate_stops_at_first_failure] on a gate whose ideVersion clause fails
    and whose other fields would throw. *)
Lemma gate_stops_at_first_failure_witness :
  DisplayIf.extensionId failingIdeVersionGate = toolkit
  /\ @isValidVersion node_semver.package "1.50.0" (Range (Some "2.0.0") None) = Ok false
  /\ @shouldDisplayNotification node_semver.package toolkit engine
       (notification failingIdeVersionGate) = Ok false.
Proof.
  assert (Hid : DisplayIf.extensionId (displayIf (notification failingIdeVersionGate)) = toolkit)
    by reflexivity.
  assert (Hfalse : @isValidVersion node_semver.package "1.50.0" (Range (Some "2.0.0") None) = Ok false)
    by reflexivity.
  split; [exact Hid|]. split; [exact Hfalse|].
  apply (proj1 (gate_stops_at_first_failure node_semver.package toolkit engine
                  (notification failingIdeVersionGate) Hid)).
  exists (Range (Some "2.0.0") None). split; [reflexivity | exact Hfalse].
Defined.

End gate_short_circuit.
